(** * Sairen MarketEnv: the step/reset accounting state machine

    A shallow embedding of [sairen/env.py] (class [MarketEnv]) and the
    properties of its episode state machine, its profit accounting and its
    observation queue.

    Modelling choices, all taken from the source:

    - Python floats are IEEE binary64 numbers: Rocq's primitive [float].
      [self.profit = 0] stores the integer zero; it is used only as a float
      summand and is represented by the float zero.
    - The broker gateway [self.ib] (package [ibroke]) is external.  What the
      environment asks of it is recorded, in order, in [ib_calls]; what it
      answers ([get_position], [get_open_orders], [get_cost], [connected])
      is an input of the operation that asks.
    - The gateway runs [_on_mktdata], [_on_order] and [_on_alert] on its own
      thread, and the source takes no lock.  The caller's thread gives way
      to them where the source suspends, in [time.sleep] and in the
      blocking [Queue.get], and it can be preempted between any two of its
      statements.  The callbacks write [raw_obs], [pos_actual],
      [unrealized_gain], the queue, the log and the accumulator [profit].
      In [step] the accumulator is read twice and then zeroed (lines
      235-237), so a callback that runs between two of these three
      statements is not the same as one that runs before or after them:
      [step] takes, as inputs, the callbacks delivered at each suspension
      point and those that preempt it between lines 235 and 236 and
      between lines 236 and 237.  A callback that preempts [step] at
      another statement is taken before the call, at the nearest of these
      points, or after the call; the caller reads nothing in between that
      the callback writes, apart from the [unrealized_gain] that [info]
      reports.  [reset] takes the callbacks delivered at its two
      suspension points: a fill that preempts it after line 184 counts with
      those of the wait, any other preempting callback with those of the
      sleep.  A callback itself runs as one block.
    - [time.time()] readings are inputs.
    - Log lines at warning level are recorded in [warnings]; debug and info
      lines are not modelled. *)

From Stdlib Require Import ZArith List Bool Lia String.
From Stdlib Require Import Floats.
Import ListNotations.

Local Open Scope Z_scope.

(** ** Python and NumPy arithmetic used by the environment *)

Inductive Exn :=
| TypeError
| ValueError
| AssertionError
| AttributeError
| OverflowError.

(** [float(n)] for a Python integer [n]: the nearest binary64 number. *)
Definition float_of_Z (z : Z) : float :=
  SF2Prim (binary_normalize prec emax z 0 false).

(** Nearest integer to [n / d] for [0 <= n] and [0 < d], ties to even. *)
Definition round_half_even (n d : Z) : Z :=
  let q := n / d in
  match 2 * (n mod d) ?= d with
  | Lt => q
  | Gt => q + 1
  | Eq => if Z.even q then q else q + 1
  end.

(** Python 3 [round(x)] on a float, one argument: an integer, halves go to
    the even neighbour; [ValueError] on NaN, [OverflowError] on infinities. *)
Definition py_round (x : float) : Exn + Z :=
  match Prim2SF x with
  | S754_nan => inl ValueError
  | S754_infinity _ => inl OverflowError
  | S754_zero _ => inr 0
  | S754_finite s m e =>
      let mag := match e with
                 | Zneg p => round_half_even (Zpos m) (2 ^ Zpos p)
                 | _ => Zpos m * 2 ^ e
                 end in
      inr (if s then - mag else mag)
  end.

(** [np.clip(a, lo, hi)] on one float: NaN passes through. *)
Definition np_clip (a lo hi : float) : float :=
  if (a <? lo)%float then lo else if (hi <? a)%float then hi else a.

(** [action_space = Box(-1, 1, shape=(1,))] *)
Definition action_low : float := (-1)%float.
Definition action_high : float := 1%float.

(** [Box.contains]: [(x >= low).all() and (x <= high).all()] *)
Definition box_contains (x : float) : bool :=
  (action_low <=? x)%float && (x <=? action_high)%float.

(** [MAX_INSTRUMENT_QUANTITY] *)
Definition MAX_INSTRUMENT_QUANTITY : Z := 20000.

(** ** Data model *)

(** A transformed observation: a NumPy float vector. *)
Definition Obs := list float.

(** [ibroke.Bar], with the fields that [BAR_BOUNDS] lists. *)
Record Bar := mkBar {
  bar_time : float;
  bid : float;
  bidsize : float;
  ask : float;
  asksize : float;
  last : float;
  lastsize : float;
  lasttime : float;
  open : float;
  high : float;
  low : float;
  close : float;
  vwap : float;
  volume : float;
  open_interest : float
}.

(** [np.asarray(bar, dtype=float)] *)
Definition bar_array (b : Bar) : Obs :=
  [bar_time b; bid b; bidsize b; ask b; asksize b; last b; lastsize b;
   lasttime b; open b; high b; low b; close b; vwap b; volume b;
   open_interest b].

(** Requests made to the gateway. *)
Inductive IbCall :=
| CancelAll
| OrderTarget (quantity : Z)
| Flatten
| Disconnect.

Inductive Warning :=
| FallingBehind (qsize : Z)
| Constipation (position : Z) (open_orders : Z)
| Alert (msg : string).

(** Callbacks run by the gateway thread, with the gateway's answers to the
    queries the callback makes. *)
Inductive GwEvent :=
| OnBar (bar : Bar) (position : Z) (cost : option float) (connected : bool)
| OnOrder (order_profit : float)
| OnAlert (msg : string).

(** Constructor arguments that the operations read. *)
Record Config := mkConfig {
  max_quantity : Z;
  episode_steps : option Z;
  obs_xform : option (Obs -> float -> Z -> Z -> option Obs);
  leverage : Z
}.

(** The constructor's assertions. *)
Definition valid_config (cfg : Config) : Prop :=
  1 <= max_quantity cfg <= MAX_INSTRUMENT_QUANTITY /\
  match episode_steps cfg with Some n => 0 < n | None => True end.

(** The attributes of a [MarketEnv].  A queue holds Python objects, so its
    items are [option Obs], [None] being Python's [None]. *)
Record Env := mkEnv {
  data_q : option (list (option Obs));
  profit : float;
  episode_profit : float;
  reward : option float;
  raw_obs : option Bar;
  observation : option Obs;
  pos_desired : Z;
  done : bool;
  step_num : Z;
  unrealized_gain : float;
  _finish_on_next_step : bool;
  pos_actual : Z;
  act_start_time : option float;
  act_time : list float;
  action : option float;
  ib_calls : list IbCall;
  warnings : list Warning
}.

Definition set_data_q v (s : Env) : Env :=
  mkEnv v (profit s) (episode_profit s) (reward s) (raw_obs s)
    (observation s) (pos_desired s) (done s) (step_num s)
    (unrealized_gain s) (_finish_on_next_step s) (pos_actual s)
    (act_start_time s) (act_time s) (action s) (ib_calls s) (warnings s).
Definition set_profit v (s : Env) : Env :=
  mkEnv (data_q s) v (episode_profit s) (reward s) (raw_obs s)
    (observation s) (pos_desired s) (done s) (step_num s)
    (unrealized_gain s) (_finish_on_next_step s) (pos_actual s)
    (act_start_time s) (act_time s) (action s) (ib_calls s) (warnings s).
Definition set_episode_profit v (s : Env) : Env :=
  mkEnv (data_q s) (profit s) v (reward s) (raw_obs s) (observation s)
    (pos_desired s) (done s) (step_num s) (unrealized_gain s)
    (_finish_on_next_step s) (pos_actual s) (act_start_time s) (act_time s)
    (action s) (ib_calls s) (warnings s).
Definition set_reward v (s : Env) : Env :=
  mkEnv (data_q s) (profit s) (episode_profit s) v (raw_obs s)
    (observation s) (pos_desired s) (done s) (step_num s)
    (unrealized_gain s) (_finish_on_next_step s) (pos_actual s)
    (act_start_time s) (act_time s) (action s) (ib_calls s) (warnings s).
Definition set_raw_obs v (s : Env) : Env :=
  mkEnv (data_q s) (profit s) (episode_profit s) (reward s) v
    (observation s) (pos_desired s) (done s) (step_num s)
    (unrealized_gain s) (_finish_on_next_step s) (pos_actual s)
    (act_start_time s) (act_time s) (action s) (ib_calls s) (warnings s).
Definition set_observation v (s : Env) : Env :=
  mkEnv (data_q s) (profit s) (episode_profit s) (reward s) (raw_obs s) v
    (pos_desired s) (done s) (step_num s) (unrealized_gain s)
    (_finish_on_next_step s) (pos_actual s) (act_start_time s) (act_time s)
    (action s) (ib_calls s) (warnings s).
Definition set_pos_desired v (s : Env) : Env :=
  mkEnv (data_q s) (profit s) (episode_profit s) (reward s) (raw_obs s)
    (observation s) v (done s) (step_num s) (unrealized_gain s)
    (_finish_on_next_step s) (pos_actual s) (act_start_time s) (act_time s)
    (action s) (ib_calls s) (warnings s).
Definition set_done v (s : Env) : Env :=
  mkEnv (data_q s) (profit s) (episode_profit s) (reward s) (raw_obs s)
    (observation s) (pos_desired s) v (step_num s) (unrealized_gain s)
    (_finish_on_next_step s) (pos_actual s) (act_start_time s) (act_time s)
    (action s) (ib_calls s) (warnings s).
Definition set_step_num v (s : Env) : Env :=
  mkEnv (data_q s) (profit s) (episode_profit s) (reward s) (raw_obs s)
    (observation s) (pos_desired s) (done s) v (unrealized_gain s)
    (_finish_on_next_step s) (pos_actual s) (act_start_time s) (act_time s)
    (action s) (ib_calls s) (warnings s).
Definition set_unrealized_gain v (s : Env) : Env :=
  mkEnv (data_q s) (profit s) (episode_profit s) (reward s) (raw_obs s)
    (observation s) (pos_desired s) (done s) (step_num s) v
    (_finish_on_next_step s) (pos_actual s) (act_start_time s) (act_time s)
    (action s) (ib_calls s) (warnings s).
Definition set_finish_on_next_step v (s : Env) : Env :=
  mkEnv (data_q s) (profit s) (episode_profit s) (reward s) (raw_obs s)
    (observation s) (pos_desired s) (done s) (step_num s)
    (unrealized_gain s) v (pos_actual s) (act_start_time s) (act_time s)
    (action s) (ib_calls s) (warnings s).
Definition set_pos_actual v (s : Env) : Env :=
  mkEnv (data_q s) (profit s) (episode_profit s) (reward s) (raw_obs s)
    (observation s) (pos_desired s) (done s) (step_num s)
    (unrealized_gain s) (_finish_on_next_step s) v (act_start_time s)
    (act_time s) (action s) (ib_calls s) (warnings s).
Definition set_act_start_time v (s : Env) : Env :=
  mkEnv (data_q s) (profit s) (episode_profit s) (reward s) (raw_obs s)
    (observation s) (pos_desired s) (done s) (step_num s)
    (unrealized_gain s) (_finish_on_next_step s) (pos_actual s) v
    (act_time s) (action s) (ib_calls s) (warnings s).
Definition set_act_time v (s : Env) : Env :=
  mkEnv (data_q s) (profit s) (episode_profit s) (reward s) (raw_obs s)
    (observation s) (pos_desired s) (done s) (step_num s)
    (unrealized_gain s) (_finish_on_next_step s) (pos_actual s)
    (act_start_time s) v (action s) (ib_calls s) (warnings s).
Definition set_action v (s : Env) : Env :=
  mkEnv (data_q s) (profit s) (episode_profit s) (reward s) (raw_obs s)
    (observation s) (pos_desired s) (done s) (step_num s)
    (unrealized_gain s) (_finish_on_next_step s) (pos_actual s)
    (act_start_time s) (act_time s) v (ib_calls s) (warnings s).
Definition ib_call (c : IbCall) (s : Env) : Env :=
  mkEnv (data_q s) (profit s) (episode_profit s) (reward s) (raw_obs s)
    (observation s) (pos_desired s) (done s) (step_num s)
    (unrealized_gain s) (_finish_on_next_step s) (pos_actual s)
    (act_start_time s) (act_time s) (action s) (ib_calls s ++ [c])
    (warnings s).
Definition warn (w : Warning) (s : Env) : Env :=
  mkEnv (data_q s) (profit s) (episode_profit s) (reward s) (raw_obs s)
    (observation s) (pos_desired s) (done s) (step_num s)
    (unrealized_gain s) (_finish_on_next_step s) (pos_actual s)
    (act_start_time s) (act_time s) (action s) (ib_calls s)
    (warnings s ++ [w]).

(** [__init__]: the environment starts in the "please call reset()" state.
    [position] is the gateway's answer to [get_position]. *)
Definition init (position : Z) : Env :=
  {| data_q := None;
     profit := 0;
     episode_profit := 0;
     reward := None;
     raw_obs := None;
     observation := None;
     pos_desired := 0;
     done := true;
     step_num := 0;
     unrealized_gain := 0;
     _finish_on_next_step := false;
     pos_actual := position;
     act_start_time := None;
     act_time := [];
     action := None;
     ib_calls := [];
     warnings := [] |}.

(** [deque(maxlen=10).append]: the oldest entry leaves a full deque. *)
Definition deque_append (x : float) (d : list float) : list float :=
  let d' := d ++ [x] in
  if (10 <? Z.of_nat (List.length d'))%Z then tl d' else d'.

(** ** Callbacks of the gateway thread *)

Section Callbacks.

Variable cfg : Config.

(** [self._xform]: the identity when no transform was given. *)
Definition _xform : Obs -> float -> Z -> Z -> option Obs :=
  match obs_xform cfg with
  | None => fun obs _ _ _ => Some obs
  | Some f => f
  end.

(** [cost or 0] *)
Definition cost_or_0 (cost : option float) : float :=
  match cost with
  | None => 0%float
  | Some c => if (c =? 0)%float then 0%float else c
  end.

(** The transformed observation that [_on_mktdata] computes. *)
Definition cooked (bar : Bar) (position : Z) (cost : option float)
  : float * option Obs :=
  let gain := (float_of_Z (position * leverage cfg)
               * ((if position >? 0 then bid bar else ask bar)
                  - cost_or_0 cost))%float in
  (gain, _xform (bar_array bar) gain position (max_quantity cfg)).

(** The guard of [_on_mktdata]. *)
Definition enqueues (obs : option Obs) (connected : bool) (s : Env) : bool :=
  match obs with Some _ => true | None => false end
  && connected && negb (done s)
  && match data_q s with Some _ => true | None => false end.

Definition _on_mktdata (bar : Bar) (position : Z) (cost : option float)
    (connected : bool) (s : Env) : Env :=
  let s := set_raw_obs (Some bar) s in
  let s := set_pos_actual position s in
  let '(gain, obs) := cooked bar position cost in
  let s := set_unrealized_gain gain s in
  if enqueues obs connected s then
    match data_q s with
    | Some q =>
        let q' := q ++ [obs] in
        let s := set_data_q (Some q') s in
        if 1 <? Z.of_nat (List.length q')
        then warn (FallingBehind (Z.of_nat (List.length q'))) s
        else s
    | None => s
    end
  else s.

Definition _on_order (order_profit : float) (s : Env) : Env :=
  set_profit (profit s + order_profit)%float s.

Definition _on_alert (msg : string) (s : Env) : Env :=
  warn (Alert msg) s.

Definition deliver (e : GwEvent) (s : Env) : Env :=
  match e with
  | OnBar bar position cost connected =>
      _on_mktdata bar position cost connected s
  | OnOrder p => _on_order p s
  | OnAlert msg => _on_alert msg s
  end.

(** The callbacks [evs] run one after the other, oldest first. *)
Definition deliver_all (evs : list GwEvent) (s : Env) : Env :=
  fold_left (fun s e => deliver e s) evs s.

End Callbacks.

(** The profit contributions of the order events among [evs], in order. *)
Definition fills (evs : list GwEvent) : list float :=
  flat_map (fun e => match e with OnOrder p => [p] | _ => [] end) evs.

(** The float sum of [ps], added from the left onto [start]. *)
Definition fsum (start : float) (ps : list float) : float :=
  fold_left PrimFloat.add ps start.

(** ** The caller's thread: state, exceptions and blocking *)

(** How a call ends: it returns, it raises, or it is still blocked in
    [Queue.get] after the callbacks it was given. *)
Inductive Outcome (A : Type) :=
| Returned (a : A)
| Raised (e : Exn)
| Blocked.
Arguments Returned {A} a.
Arguments Raised {A} e.
Arguments Blocked {A}.

(** A method body: it changes the attributes and ends in an [Outcome].
    The attributes written before an exception stay written. *)
Definition M (A : Type) : Type := Env -> Env * Outcome A.

Definition ret {A} (a : A) : M A := fun s => (s, Returned a).

Definition bind {A B} (m : M A) (k : A -> M B) : M B :=
  fun s =>
    match m s with
    | (s', Returned a) => k a s'
    | (s', Raised e) => (s', Raised e)
    | (s', Blocked) => (s', Blocked)
    end.

Definition raise {A} (e : Exn) : M A := fun s => (s, Raised e).
Definition gets {A} (f : Env -> A) : M A := fun s => (s, Returned (f s)).
Definition modify (f : Env -> Env) : M unit := fun s => (f s, Returned tt).

Declare Scope env_scope.
Delimit Scope env_scope with env.
Notation "x <- m ;; k" := (bind m (fun x => k))
  (at level 61, m at next level, right associativity) : env_scope.
Notation "m ;; k" := (bind m (fun _ => k))
  (at level 61, right associativity) : env_scope.
Local Open Scope env_scope.

(** What [step] needs from outside: the agent's action, the clock, the
    gateway's answers, and the callbacks delivered while it is suspended. *)
Record StepIn := mkStepIn {
  in_action : float;
  in_now : float;                  (* time.time() on entry *)
  in_position : Z;                 (* ib.get_position, after cancel_all *)
  in_open_orders : Z;              (* number of ib.get_open_orders() *)
  in_settle : list GwEvent;        (* during time.sleep(1), terminal step *)
  in_booking : list GwEvent;       (* between lines 235 and 236 *)
  in_zeroing : list GwEvent;       (* between lines 236 and 237 *)
  in_wait : list GwEvent;          (* during data_q.get() *)
  in_info_position : Z;            (* ib.get_position, read by info *)
  in_info_cost : option float;     (* ib.get_cost, read by info *)
  in_now_end : float               (* time.time() before returning *)
}.

Record ResetIn := mkResetIn {
  rin_settle : list GwEvent;       (* during flatten()'s time.sleep(1) *)
  rin_wait : list GwEvent;         (* during data_q.get() *)
  rin_now : float                  (* time.time() before returning *)
}.

(** The [info] dict, without [agent_time_avg] (NumPy's mean of the
    latencies, which nothing else reads). *)
Record Info := mkInfo {
  info_step : Z;
  info_episode_profit : float;
  info_position_desired : Z;
  info_position_actual : Z;
  info_unrealized_gain : float;
  info_avg_cost : float;
  info_agent_time_last : float
}.

Record StepResult := mkStepResult {
  r_observation : option Obs;
  r_reward : option float;
  r_done : bool;
  r_info : Info
}.

Section Operations.

Variable cfg : Config.

(** [time.sleep]: the gateway thread runs [evs] meanwhile. *)
Definition sleep (evs : list GwEvent) : M unit :=
  modify (deliver_all cfg evs).

(** The gateway thread runs [evs] between two statements of the caller. *)
Definition preempted (evs : list GwEvent) : M unit :=
  modify (deliver_all cfg evs).

(** [self.data_q.get()]: the gateway thread runs [evs] while the caller
    waits; the caller then takes the oldest item.  With no item after
    [evs] the caller is still blocked. *)
Definition queue_get (evs : list GwEvent) : M (option Obs) :=
  modify (deliver_all cfg evs) ;;
  q <- gets data_q ;;
  match q with
  | None => raise AttributeError
  | Some [] => fun s => (s, Blocked)
  | Some (o :: q') => modify (set_data_q (Some q')) ;; ret o
  end.

Definition flatten (evs : list GwEvent) : M unit :=
  modify (ib_call Flatten) ;;
  sleep evs.

Definition finish_on_next_step : M unit :=
  modify (set_finish_on_next_step true).

Definition info (position : Z) (cost : option float) : M Info :=
  s <- gets (fun s => s) ;;
  ret {| info_step := step_num s;
         info_episode_profit := episode_profit s;
         info_position_desired := pos_desired s;
         info_position_actual := position;
         info_unrealized_gain := unrealized_gain s;
         info_avg_cost := cost_or_0 cost;
         info_agent_time_last := List.last (act_time s) nan |}.

Definition _close (evs : list GwEvent) : M unit :=
  modify (set_done true) ;;
  flatten evs ;;
  modify (ib_call Disconnect).

Definition _reset (i : ResetIn) : M (option Obs) :=
  modify (set_done true) ;;
  flatten (rin_settle i) ;;
  modify (set_profit 0%float) ;;
  modify (set_episode_profit 0%float) ;;
  modify (set_reward (Some 0%float)) ;;
  modify (set_unrealized_gain 0%float) ;;
  modify (set_observation None) ;;
  modify (set_done false) ;;
  modify (set_action (Some 0%float)) ;;
  modify (set_pos_desired 0) ;;
  modify (set_finish_on_next_step false) ;;
  modify (set_step_num 0) ;;
  modify (set_data_q (Some [])) ;;
  o <- queue_get (rin_wait i) ;;
  modify (set_observation o) ;;
  modify (set_act_start_time (Some (rin_now i))) ;;
  gets observation.

(** Is this the last step of the episode?  (line 210) *)
Definition last_step (s : Env) : bool :=
  _finish_on_next_step s
  || match episode_steps cfg with
     | Some n => n <=? step_num s
     | None => false
     end.

(** Would a [step] called in state [s] be the last of the episode?
    ([last_step] is read after line 203 has counted the call.) *)
Definition terminal (s : Env) : bool :=
  last_step (set_step_num (step_num s + 1) s).

(** The callbacks that run before line 235 reads the accumulator: those
    of the settlement sleep, which only the last step takes. *)
Definition settle_events (i : StepIn) (s : Env) : list GwEvent :=
  if terminal s then in_settle i else [].

(** The action that line 214 stores. *)
Definition effective_action (i : StepIn) (s : Env) : float :=
  if terminal s then 0%float else in_action i.

(** The guard of line 224. *)
Definition may_order (i : StepIn) : bool :=
  (Z.abs (in_position i) <=? max_quantity cfg + 1)
  && (in_open_orders i <=? 2).

(** Lines 220-229: cancel, ask the gateway, and issue the target order
    unless orders or positions are piling up. *)
Definition issue_order (act : float) (position open_orders : Z) : M unit :=
  modify (ib_call CancelAll) ;;
  if (Z.abs position <=? max_quantity cfg + 1) && (open_orders <=? 2) then
    match py_round (act * float_of_Z (max_quantity cfg))%float with
    | inl e => raise e
    | inr n =>
        modify (set_pos_desired n) ;;
        modify (ib_call (OrderTarget n))
    end
  else modify (warn (Constipation position open_orders)).

(** Lines 235-237: the reward is the accumulator as line 235 reads it, the
    episode profit grows by the accumulator as line 236 reads it, and line
    237 zeroes the accumulator.  No lock is held: the gateway thread may
    run callbacks between the three statements. *)
Definition account (i : StepIn) : M unit :=
  modify (fun s => set_reward (Some (profit s)) s) ;;
  preempted (in_booking i) ;;
  modify (fun s => set_episode_profit
                     (episode_profit s + profit s)%float s) ;;
  preempted (in_zeroing i) ;;
  modify (set_profit 0%float).

(** [_step] up to the blocking [data_q.get()] (lines 202-237); the value
    is the local [done]. *)
Definition step_to_wait (i : StepIn) : M bool :=
  t0 <- gets act_start_time ;;
  match t0 with
  | None => raise TypeError
  | Some t0 =>
      modify (fun s => set_act_time
                         (deque_append (in_now i - t0)%float (act_time s)) s) ;;
      modify (fun s => set_step_num (step_num s + 1) s) ;;
      d <- gets done ;;
      if d then raise ValueError
      else
        last <- gets last_step ;;
        let act := if last then 0%float else in_action i in
        let done' := last in
        modify (set_action (Some act)) ;;
        let act := np_clip act action_low action_high in
        if negb (box_contains act) then raise AssertionError
        else
          issue_order act (in_position i) (in_open_orders i) ;;
          (if done' then sleep (in_settle i) else ret tt) ;;
          account i ;;
          ret done'
  end.

(** [_step] from the blocking [data_q.get()] on (lines 238-245). *)
Definition step_from_wait (i : StepIn) (done' : bool) : M StepResult :=
  o <- queue_get (in_wait i) ;;
  modify (set_observation o) ;;
  modify (set_done done') ;;
  inf <- info (in_info_position i) (in_info_cost i) ;;
  modify (set_act_start_time (Some (in_now_end i))) ;;
  s <- gets (fun s => s) ;;
  ret {| r_observation := observation s;
         r_reward := reward s;
         r_done := done s;
         r_info := inf |}.

Definition _step (i : StepIn) : M StepResult :=
  done' <- step_to_wait i ;;
  step_from_wait i done'.

(** ** Runs: the caller's calls and the callbacks between them *)

Inductive Call :=
| CallReset (i : ResetIn)
| CallStep (i : StepIn)
| CallFinish
| CallClose (evs : list GwEvent)
| Callback (e : GwEvent).

(** A call, with the observations it hands to the caller. *)
Definition call (c : Call) : M (list (option Obs)) :=
  match c with
  | CallReset i => o <- _reset i ;; ret [o]
  | CallStep i => r <- _step i ;; ret [r_observation r]
  | CallFinish => finish_on_next_step ;; ret []
  | CallClose evs => _close evs ;; ret []
  | Callback e => modify (deliver cfg e) ;; ret []
  end.

(** The calls [cs] in order.  A caller that catches an exception goes on
    with the next call; a blocked caller makes no further call.  The result
    is the state reached and the observations received. *)
Fixpoint run (cs : list Call) (s : Env) : option (Env * list (option Obs)) :=
  match cs with
  | [] => Some (s, [])
  | c :: cs' =>
      match call c s with
      | (s', Returned os) =>
          match run cs' s' with
          | Some (s'', os') => Some (s'', os ++ os')
          | None => None
          end
      | (s', Raised _) => run cs' s'
      | (_, Blocked) => None
      end
  end.

Definition is_step (c : Call) : bool :=
  match c with CallStep _ => true | _ => false end.

Definition is_reset_or_close (c : Call) : bool :=
  match c with CallReset _ | CallClose _ => true | _ => false end.

(** The state when line 236 reads the accumulator again. *)
Definition rewarded (i : StepIn) (s : Env) : Env :=
  deliver_all cfg (in_booking i) (set_reward (Some (profit s)) s).

(** The state after lines 235-237. *)
Definition accounted (i : StepIn) (s : Env) : Env :=
  let s1 := rewarded i s in
  set_profit 0%float
    (deliver_all cfg (in_zeroing i)
       (set_episode_profit (episode_profit s1 + profit s1)%float s1)).

(** The state that line 216 checks. *)
Definition entered (i : StepIn) (t0 : float) (s : Env) : Env :=
  set_action (Some (effective_action i s))
    (set_step_num (step_num s + 1)
       (set_act_time (deque_append (in_now i - t0)%float (act_time s)) s)).

(** The state in which [step] returns. *)
Definition stepped (i : StepIn) (d : bool) (o : option Obs)
    (q : list (option Obs)) (s1 : Env) : Env :=
  set_act_start_time (Some (in_now_end i))
    (set_done d (set_observation o (set_data_q (Some q) s1))).

(** The state after lines 184-194 of [_reset]. *)
Definition cleared (s : Env) : Env :=
  set_data_q (Some [])
    (set_step_num 0
       (set_finish_on_next_step false
          (set_pos_desired 0
             (set_action (Some 0%float)
                (set_done false
                   (set_observation None
                      (set_unrealized_gain 0%float
                         (set_reward (Some 0%float)
                            (set_episode_profit 0%float
                               (set_profit 0%float s)))))))))).

(** The state in which [reset] returns. *)
Definition restarted (i : ResetIn) (o : option Obs)
    (q : list (option Obs)) (s1 : Env) : Env :=
  set_act_start_time (Some (rin_now i))
    (set_observation o (set_data_q (Some q) s1)).

(** The callbacks delivered while a call was blocked in [data_q.get()]. *)
Definition wait_of (c : Call) : list GwEvent :=
  match c with
  | CallReset i => rin_wait i
  | CallStep i => in_wait i
  | _ => []
  end.

(** The calls that zero the per-step accumulator. *)
Definition zeroes_profit (c : Call) : bool :=
  match c with CallReset _ | CallStep _ => true | _ => false end.

End Operations.

(** ** Auxiliary definitions for the statements *)

(** The attributes that no callback writes. *)
Definition caller_view (s : Env)
  : float * option float * option Obs * Z * bool * Z * bool
    * option float * list float * option float * list IbCall :=
  (episode_profit s, reward s, observation s, pos_desired s, done s,
   step_num s, _finish_on_next_step s, act_start_time s, act_time s,
   action s, ib_calls s).

(** No item of the queue is Python's [None]. *)
Definition queue_ok (s : Env) : Prop :=
  match data_q s with
  | Some q => Forall (fun o => o <> None) q
  | None => True
  end.

(** [f] holds of [q], [q + 1], ..., [q + n - 1]. *)
Fixpoint upto (n : nat) (q : Z) (f : Z -> bool) : bool :=
  match n with
  | O => true
  | S n' => f q && upto n' (q + 1) f
  end.

Definition round_is (x : float) (n : Z) : bool :=
  match py_round x with inr m => m =? n | inl _ => false end.

(** ** Concrete inputs, for the examples *)

Definition bar0 : Bar :=
  mkBar 100 10 1 11 1 10.5 1 100 10 11 9 10.5 10.25 1000 0.

(** Ten contracts, episodes of two steps, no transform. *)
Definition cfg0 : Config := mkConfig 10 (Some 2) None 1.

(** Ten contracts, episodes without a step limit. *)
Definition cfg1 : Config := mkConfig 10 None None 1.

(** A bar that arrives while the gateway is connected and holds nothing. *)
Definition ev_bar : GwEvent := OnBar bar0 0 None true.

(** A [reset] during whose wait a fill of 0.5 and then a bar arrive. *)
Definition rin0 : ResetIn := mkResetIn [] [OnOrder 0.5; ev_bar] 1000.

(** A [step] with action [a], flat gateway, no open orders, and the
    callbacks [w] delivered while it waits. *)
Definition sin0 (a : float) (w : list GwEvent) : StepIn :=
  mkStepIn a 1001 0 0 [] [] [] w 0 None 1002.

(** The state in which [reset] returns, on a fresh environment. *)
Definition env0 : Env := Eval vm_compute in fst (_reset cfg0 rin0 (init 3)).
Definition env1 : Env := Eval vm_compute in fst (_reset cfg1 rin0 (init 3)).

(** The state after a whole episode of [cfg0]: [reset] and two steps, the
    second of which ends the episode. *)
Definition env_done : Env :=
  Eval vm_compute in
    match run cfg0 [CallReset rin0; CallStep (sin0 0.5 [ev_bar]);
                    CallStep (sin0 0.5 [ev_bar])] (init 3) with
    | Some (s, _) => s
    | None => init 3
    end.

(** An episode is active after [reset] and until a [step] ends it: steps
    are accepted, the start time is set and the queue exists. *)
Definition active (s : Env) : Prop :=
  done s = false /\ act_start_time s <> None /\ data_q s <> None.

Definition is_reset (c : Call) : bool :=
  match c with CallReset _ => true | _ => false end.

(** The number of calls to [step] among [cs]. *)
Definition count_steps (cs : list Call) : Z :=
  Z.of_nat (List.length (filter is_step cs)).

(** The last step of an episode, as [step] called with [i] in state [s]
    carries it out: the action is forced to zero, outstanding orders are
    cancelled, a target that is issued is zero, no exception is raised, and
    the call returns [done = True] as soon as an observation is there. *)
Definition forced_terminal (cfg : Config) (i : StepIn) (s : Env) : Prop :=
  exists s_w,
    step_to_wait cfg i s = (s_w, Returned true) /\
    action s_w = Some 0%float /\
    ib_calls s_w
    = ib_calls s ++ CancelAll :: (if may_order cfg i then [OrderTarget 0]
                                  else []) /\
    (may_order cfg i = true -> pos_desired s_w = 0) /\
    done (deliver_all cfg (in_wait i) s_w) = false /\
    match _step cfg i s with
    | (s', Returned r) => r_done r = true /\ done s' = true
    | (_, Raised _) => False
    | (_, Blocked) => data_q (deliver_all cfg (in_wait i) s_w) = Some []
    end.

(** [env0] after a fill of 2.5 and one step with action 0.5. *)
Definition env0_stepped : Env :=
  Eval vm_compute in
    fst (_step cfg0 (sin0 0.5 [ev_bar]) (deliver_all cfg0 [OnOrder 2.5] env0)).

(** A bar is ready when it arrives while the gateway is connected and the
    transform accepts it. *)
Definition ready (cfg : Config) (e : GwEvent) : Prop :=
  match e with
  | OnBar bar position cost connected =>
      connected = true /\ snd (cooked cfg bar position cost) <> None
  | _ => False
  end.

(** [env0_stepped] inside its second, last step, about to wait. *)
Definition env0_waiting : Env :=
  Eval vm_compute in
    fst (step_to_wait cfg0 (sin0 0.75 [OnOrder 1.5; ev_bar]) env0_stepped).

(** [env1] after a fill of 2.5 and one step, during whose wait a fill of
    0.25 arrives before the bar. *)
Definition env1_stepped : Env :=
  Eval vm_compute in
    fst (_step cfg1 (sin0 0.5 [OnOrder 0.25; ev_bar])
           (deliver_all cfg1 [OnOrder 2.5] env1)).

(** The float of a size is positive, with a 53-bit mantissa and an exponent
    of at most -38. *)
Definition modest_size (q : Z) : bool :=
  match Prim2SF (float_of_Z q) with
  | S754_finite false m e => (Zpos m <? 2 ^ 53) && (e <=? -38)
  | _ => false
  end.

(** The action as line 215 clips it. *)
Definition clipped_action (cfg : Config) (i : StepIn) (s : Env) : float :=
  np_clip (effective_action cfg i s) action_low action_high.

(** Halves in the range of the targets go to the even neighbour. *)
Definition half_to_even (k : Z) : bool :=
  round_is (float_of_Z k + 0.5)%float (if Z.even k then k else k + 1).

(** The state when the order has been dealt with (line 229). *)
Definition ordered (cfg : Config) (i : StepIn) (t0 : float) (n : Z) (s : Env) : Env :=
  if may_order cfg i
  then ib_call (OrderTarget n)
         (set_pos_desired n (ib_call CancelAll (entered cfg i t0 s)))
  else warn (Constipation (in_position i) (in_open_orders i))
         (ib_call CancelAll (entered cfg i t0 s)).

(** The binary64 number that Python reads the literal [0.55] as. *)
Definition action_055 : float := 0x1.199999999999ap-1%float.

(** A [step] at which the gateway reports twelve contracts held. *)
Definition sin_congested : StepIn :=
  mkStepIn 0.5 1001 12 0 [] [] [] [ev_bar] 12 None 1002.

(** [env1] inside a step with action 0.55, about to wait. *)
Definition env1_waiting : Env :=
  Eval vm_compute in fst (step_to_wait cfg1 (sin0 action_055 [ev_bar]) env1).

(** A [reset] during whose wait a fill arrives and then a bar that still
    reports three contracts held. *)
Definition rin_unsettled : ResetIn :=
  mkResetIn [] [OnOrder 0.5; OnBar bar0 3 (Some 10%float) true] 1000.

(** The observations that the bars among [evs] put in the queue of an
    environment that is not done and has a queue (line 135): those the
    transform accepts, of bars that arrive connected. *)
Definition arrivals (cfg : Config) (evs : list GwEvent) : list (option Obs) :=
  flat_map (fun e =>
              match e with
              | OnBar bar position cost connected =>
                  match snd (cooked cfg bar position cost) with
                  | Some o => if connected then [Some o] else []
                  | None => []
                  end
              | _ => []
              end) evs.

(** The reward that a call hands to the caller, if it is a [step] that
    returns. *)
Definition reward_of (cfg : Config) (c : Call) (s : Env) : list float :=
  match c with
  | CallStep i =>
      match _step cfg i s with
      | (_, Returned r) =>
          match r_reward r with Some x => [x] | None => [] end
      | _ => []
      end
  | _ => []
  end.

(** The rewards handed to the caller over the calls [cs], in order. *)
Fixpoint rewards (cfg : Config) (cs : list Call) (s : Env) : list float :=
  match cs with
  | [] => []
  | c :: cs' => reward_of cfg c s ++ rewards cfg cs' (fst (call cfg c s))
  end.

(** In the log of requests, every target order comes right after a
    cancellation of the outstanding orders. *)
Definition cancel_before_order (l : list IbCall) : Prop :=
  forall l1 n l2, l = l1 ++ OrderTarget n :: l2 ->
                  exists l0, l1 = l0 ++ [CancelAll].

(** A [reset] followed by twelve steps. *)
Definition calls_long : list Call :=
  CallReset rin0 :: repeat (CallStep (sin0 0.5 [ev_bar])) 12.

Definition env_long : Env :=
  Eval vm_compute in
    match run cfg1 calls_long (init 3) with
    | Some (s, _) => s
    | None => init 3
    end.

(** [env1] with two more observations waiting in the queue. *)
Definition env1_backlog : Env :=
  Eval vm_compute in deliver_all cfg1 [ev_bar; ev_bar] env1.

(** A fill of 2.5, a step, a fill of 1, and another step. *)
Definition calls_two_steps : list Call :=
  [Callback (OnOrder 2.5); CallStep (sin0 0.5 [OnOrder 0.25; ev_bar]);
   Callback (OnOrder 1); CallStep (sin0 0.5 [ev_bar])].

Definition env1_two_steps : Env :=
  Eval vm_compute in
    match run cfg1 calls_two_steps env1 with
    | Some (s, _) => s
    | None => env1
    end.

(** What a caller may try on an episode that has ended. *)
Definition calls_after_done : list Call :=
  [CallStep (sin0 0.5 [ev_bar]); Callback ev_bar; CallFinish;
   CallClose [ev_bar]].

Definition env_after_done : Env :=
  Eval vm_compute in
    match run cfg0 calls_after_done env_done with
    | Some (s, _) => s
    | None => env_done
    end.

(** A [step] that the gateway thread preempts twice: a fill of 1 lands
    between lines 235 and 236, a fill of 2 between lines 236 and 237. *)
Definition sin_preempted : StepIn :=
  mkStepIn 0.5 1001 0 0 [] [OnOrder 1] [OnOrder 2] [ev_bar] 0 None 1002.

(** [env1] after a fill of 2.5 and the preempted step. *)
Definition env1_preempted : Env :=
  Eval vm_compute in
    fst (_step cfg1 sin_preempted (deliver_all cfg1 [OnOrder 2.5] env1)).

(** What a call adds to the episode profit, if it is a [step] that
    returns: the accumulator as line 236 reads it, which is the reward and
    the fills delivered since line 235 read it. *)
Definition booking_of (cfg : Config) (c : Call) (s : Env) : list float :=
  match c with
  | CallStep i =>
      match _step cfg i s with
      | (_, Returned r) =>
          match r_reward r with
          | Some x => [fsum x (fills (in_booking i))]
          | None => []
          end
      | _ => []
      end
  | _ => []
  end.

(** The amounts added to the episode profit over the calls [cs]. *)
Fixpoint bookings (cfg : Config) (cs : list Call) (s : Env) : list float :=
  match cs with
  | [] => []
  | c :: cs' => booking_of cfg c s ++ bookings cfg cs' (fst (call cfg c s))
  end.

(** No fill is delivered between lines 235 and 236 of this call. *)
Definition unpreempted (c : Call) : Prop :=
  match c with
  | CallStep i => fills (in_booking i) = []
  | _ => True
  end.

(** A fill of 2.5, the preempted step, a fill of 1, and another step. *)
Definition calls_preempted : list Call :=
  [Callback (OnOrder 2.5); CallStep sin_preempted;
   Callback (OnOrder 1); CallStep (sin0 0.5 [ev_bar])].

Definition env1_after_preempted : Env :=
  Eval vm_compute in
    match run cfg1 calls_preempted env1 with
    | Some (s, _) => s
    | None => env1
    end.

(** What may lie between two calls to [step] without ending or restarting
    the episode: callbacks of the gateway and finish requests. *)
Definition is_quiet (c : Call) : bool :=
  match c with Callback _ | CallFinish => true | _ => false end.

(** The callbacks among the calls [cs]. *)
Definition callbacks_of (cs : list Call) : list GwEvent :=
  flat_map (fun c => match c with Callback e => [e] | _ => [] end) cs.

(** A [reset] during whose wait a bar arrives, and no fill. *)
Definition rin_plain : ResetIn := mkResetIn [] [ev_bar] 1000.

(** [env0_stepped] after its second, last step, during whose wait a fill
    of 1.5 arrived before the bar. *)
Definition env0_finished : Env :=
  Eval vm_compute in
    fst (_step cfg0 (sin0 0.75 [OnOrder 1.5; ev_bar]) env0_stepped).

(** The float of a size [q] is exactly [q]: a positive mantissa [m] and an
    exponent [e] between -52 and -38 with [m = q * 2 ^ (- e)]. *)
Definition exact_size (q : Z) : bool :=
  match Prim2SF (float_of_Z q) with
  | S754_finite false m e =>
      (Zpos m <? 2 ^ 53) && (-52 <=? e) && (e <=? -38)
      && (Zpos m =? q * 2 ^ (- e))
  | _ => false
  end.

(** What [j] right shifts have made of the mantissa [m0]: its quotient by
    [2 ^ j], with both sticky bits clear when the division is exact. *)
Definition shifted (m0 : Z) (j : nat) (mrs : shr_record) : Prop :=
  shr_m mrs = m0 / 2 ^ Z.of_nat j /\
  (m0 mod 2 ^ Z.of_nat j = 0 -> shr_r mrs = false /\ shr_s mrs = false).

(** No request in the log asks for more than [limit] contracts, long or
    short. *)
Definition orders_within (limit : Z) (l : list IbCall) : Prop :=
  Forall (fun c => match c with
                   | OrderTarget n => Z.abs n <= limit
                   | _ => True
                   end) l.

(** ** Facts about the float arithmetic *)

Lemma SFcompare_antisym x y :
  SFcompare y x = option_map CompOpp (SFcompare x y).
Proof.
  destruct x as [sx|sx| |sx mx ex], y as [sy|sy| |sy my ey]; simpl;
    try reflexivity;
    try (destruct sx; reflexivity); try (destruct sy; reflexivity);
    try (destruct sx, sy; reflexivity).
  destruct sx, sy; simpl; try reflexivity; f_equal;
    rewrite (Z.compare_antisym ex ey);
    destruct (ex ?= ey); simpl; try reflexivity;
    rewrite (Pos.compare_cont_antisym mx my Eq); simpl;
    rewrite ?CompOpp_involutive; reflexivity.
Qed.

Lemma is_nan_false x : is_nan x = false -> Prim2SF x <> S754_nan.
Proof.
  unfold is_nan. rewrite eqb_spec. intros H E. rewrite E in H. discriminate.
Qed.

Lemma SFltb_false_leb x y :
  x <> S754_nan -> y <> S754_nan -> SFltb x y = false -> SFleb y x = true.
Proof.
  unfold SFltb, SFleb. rewrite (SFcompare_antisym x y).
  destruct (SFcompare x y) as [[]|] eqn:E; simpl; try reflexivity;
    try discriminate.
  intros Hx Hy _.
  destruct x, y; simpl in E; try discriminate; congruence.
Qed.

Lemma SFltb_leb x y : SFltb x y = true -> SFleb x y = true.
Proof. unfold SFltb, SFleb. destruct (SFcompare x y) as [[]|]; auto. Qed.

(** A clipped action that is not NaN passes the assertion of line 216. *)
Lemma clip_contains a :
  is_nan a = false ->
  box_contains (np_clip a action_low action_high) = true.
Proof.
  intros Hn. apply is_nan_false in Hn.
  unfold np_clip, box_contains.
  destruct (a <? action_low)%float eqn:Hlo; [reflexivity|].
  destruct (action_high <? a)%float eqn:Hhi; [reflexivity|].
  rewrite ltb_spec in Hlo, Hhi. rewrite !leb_spec.
  rewrite (SFltb_false_leb _ _ Hn) by (try discriminate; assumption).
  rewrite (SFltb_false_leb (Prim2SF action_high) (Prim2SF a)); auto.
  discriminate.
Qed.

Lemma clip_below a :
  (a <? action_low)%float = true ->
  np_clip a action_low action_high = action_low.
Proof. unfold np_clip. intros ->. reflexivity. Qed.

Lemma clip_above a :
  (action_high <? a)%float = true ->
  np_clip a action_low action_high = action_high.
Proof.
  unfold np_clip. intros H. rewrite H.
  destruct (a <? action_low)%float eqn:Hlo; [|reflexivity].
  exfalso. rewrite ltb_spec in H, Hlo.
  unfold SFltb in *.
  change (Prim2SF action_high) with (S754_finite false 4503599627370496 (-52)) in H.
  change (Prim2SF action_low) with (S754_finite true 4503599627370496 (-52)) in Hlo.
  destruct (Prim2SF a) as [s|s| |s m e]; cbn [SFcompare] in *;
    try discriminate; destruct s; discriminate.
Qed.

(** Exhaustive checks over the legal sizes [1 .. MAX_INSTRUMENT_QUANTITY]. *)
Lemma upto_spec f n : forall q z,
  upto n q f = true -> q <= z < q + Z.of_nat n -> f z = true.
Proof.
  induction n as [|n IH]; intros q z H Hz; [lia|].
  simpl in H. apply andb_true_iff in H as [H1 H2].
  destruct (Z.eq_dec z q) as [->|Hne]; [assumption|].
  apply (IH (q + 1)); [assumption|lia].
Qed.

Lemma round_is_spec x n : round_is x n = true -> py_round x = inr n.
Proof.
  unfold round_is. destruct (py_round x); [discriminate|].
  intros H. apply Z.eqb_eq in H. congruence.
Qed.

Lemma unit_targets_checked :
  upto (Z.to_nat MAX_INSTRUMENT_QUANTITY) 1 (fun q =>
    round_is (0 * float_of_Z q)%float 0
    && round_is (action_high * float_of_Z q)%float q
    && round_is (action_low * float_of_Z q)%float (- q)) = true.
Proof. vm_compute. reflexivity. Qed.

Lemma unit_targets q :
  1 <= q <= MAX_INSTRUMENT_QUANTITY ->
  py_round (0 * float_of_Z q)%float = inr 0 /\
  py_round (action_high * float_of_Z q)%float = inr q /\
  py_round (action_low * float_of_Z q)%float = inr (- q).
Proof.
  intros Hq. pose proof (upto_spec _ _ _ q unit_targets_checked) as H.
  cbv beta in H.
  assert (Hr : 1 <= q < 1 + Z.of_nat (Z.to_nat MAX_INSTRUMENT_QUANTITY)).
  { rewrite Z2Nat.id; unfold MAX_INSTRUMENT_QUANTITY in *; lia. }
  apply H in Hr. apply andb_true_iff in Hr as [Hr H3].
  apply andb_true_iff in Hr as [H1 H2].
  auto using round_is_spec.
Qed.

(** ** What the callbacks leave alone *)

Section Frames.

Variable cfg : Config.

Lemma deliver_caller_view e s :
  caller_view (deliver cfg e s) = caller_view s.
Proof.
  destruct s, e; simpl; try reflexivity.
  unfold _on_mktdata; simpl.
  destruct (cooked cfg bar position cost) as [gain obs]; simpl.
  destruct (enqueues _ _ _); [|reflexivity].
  destruct data_q0 as [q|]; simpl; [|reflexivity].
  destruct (1 <? _); reflexivity.
Qed.

Lemma deliver_all_caller_view evs s :
  caller_view (deliver_all cfg evs s) = caller_view s.
Proof.
  revert s; induction evs as [|e evs IH]; intros s; simpl; [reflexivity|].
  unfold deliver_all in *; simpl. rewrite IH. apply deliver_caller_view.
Qed.

Lemma deliver_all_app evs1 evs2 s :
  deliver_all cfg (evs1 ++ evs2) s
  = deliver_all cfg evs2 (deliver_all cfg evs1 s).
Proof. unfold deliver_all. apply fold_left_app. Qed.

Lemma deliver_profit e s :
  profit (deliver cfg e s)
  = fsum (profit s) (fills [e]).
Proof.
  destruct s, e; simpl; try reflexivity.
  unfold _on_mktdata; simpl.
  destruct (cooked cfg bar position cost) as [gain obs]; simpl.
  destruct (enqueues _ _ _); [|reflexivity].
  destruct data_q0 as [q|]; simpl; [|reflexivity].
  destruct (1 <? _); reflexivity.
Qed.

(** No callback reads the reward or the episode profit. *)
Lemma deliver_set_reward e r s :
  deliver cfg e (set_reward r s) = set_reward r (deliver cfg e s).
Proof.
  destruct s, e; try reflexivity.
  unfold deliver, _on_mktdata.
  destruct (cooked cfg bar position cost) as [gain [o|]];
    unfold enqueues; cbn; [|reflexivity].
  destruct connected, done0, data_q0 as [q|]; cbn; try reflexivity.
  destruct (1 <? _); reflexivity.
Qed.

Lemma deliver_set_episode_profit e x s :
  deliver cfg e (set_episode_profit x s)
  = set_episode_profit x (deliver cfg e s).
Proof.
  destruct s, e; try reflexivity.
  unfold deliver, _on_mktdata.
  destruct (cooked cfg bar position cost) as [gain [o|]];
    unfold enqueues; cbn; [|reflexivity].
  destruct connected, done0, data_q0 as [q|]; cbn; try reflexivity.
  destruct (1 <? _); reflexivity.
Qed.

Lemma deliver_all_set_reward evs r s :
  deliver_all cfg evs (set_reward r s) = set_reward r (deliver_all cfg evs s).
Proof.
  revert s; induction evs as [|e evs IH]; intros s; [reflexivity|].
  change (deliver_all cfg (e :: evs) (set_reward r s))
    with (deliver_all cfg evs (deliver cfg e (set_reward r s))).
  rewrite deliver_set_reward. apply IH.
Qed.

Lemma deliver_all_set_episode_profit evs x s :
  deliver_all cfg evs (set_episode_profit x s)
  = set_episode_profit x (deliver_all cfg evs s).
Proof.
  revert s; induction evs as [|e evs IH]; intros s; [reflexivity|].
  change (deliver_all cfg (e :: evs) (set_episode_profit x s))
    with (deliver_all cfg evs (deliver cfg e (set_episode_profit x s))).
  rewrite deliver_set_episode_profit. apply IH.
Qed.

Lemma fsum_app x ps qs : fsum x (ps ++ qs) = fsum (fsum x ps) qs.
Proof. unfold fsum. apply fold_left_app. Qed.

Lemma fills_app evs1 evs2 : fills (evs1 ++ evs2) = fills evs1 ++ fills evs2.
Proof. unfold fills. apply flat_map_app. Qed.

Lemma deliver_all_profit evs s :
  profit (deliver_all cfg evs s) = fsum (profit s) (fills evs).
Proof.
  revert s; induction evs as [|e evs IH]; intros s; [reflexivity|].
  change (e :: evs) with ([e] ++ evs).
  rewrite deliver_all_app, IH, fills_app, fsum_app.
  f_equal. apply deliver_profit.
Qed.

End Frames.

(** ** Proof tools *)

(** Unfolding of the state monad. *)
Ltac unfold_m :=
  unfold sleep, preempted, flatten, finish_on_next_step in *;
  unfold bind, gets, modify, raise, ret in *.

(** Projections of updated states. *)
Ltac env_simpl :=
  cbn [data_q profit episode_profit reward raw_obs observation pos_desired
       done step_num unrealized_gain _finish_on_next_step pos_actual
       act_start_time act_time action ib_calls warnings
       set_data_q set_profit set_episode_profit set_reward set_raw_obs
       set_observation set_pos_desired set_done set_step_num
       set_unrealized_gain set_finish_on_next_step set_pos_actual
       set_act_start_time set_act_time set_action ib_call warn
       entered stepped cleared restarted fst snd] in *.

(** ** The step, as equations *)

Section StepFacts.

Variable cfg : Config.

Lemma account_eq i s : account cfg i s = (accounted cfg i s, Returned tt).
Proof. reflexivity. Qed.

Lemma issue_order_eq act position open_orders s :
  issue_order cfg act position open_orders s
  = if (Z.abs position <=? max_quantity cfg + 1) && (open_orders <=? 2)
    then match py_round (act * float_of_Z (max_quantity cfg))%float with
         | inl e => (ib_call CancelAll s, Raised e)
         | inr n =>
             (ib_call (OrderTarget n)
                (set_pos_desired n (ib_call CancelAll s)), Returned tt)
         end
    else (warn (Constipation position open_orders) (ib_call CancelAll s),
          Returned tt).
Proof.
  unfold issue_order; unfold_m.
  destruct (_ && _); [|reflexivity].
  destruct (py_round _); reflexivity.
Qed.

Lemma step_to_wait_never_reset i s :
  act_start_time s = None -> step_to_wait cfg i s = (s, Raised TypeError).
Proof. intros H. unfold step_to_wait; unfold_m. rewrite H. reflexivity. Qed.

Lemma step_to_wait_done i s t0 :
  act_start_time s = Some t0 -> done s = true ->
  step_to_wait cfg i s
  = (set_step_num (step_num s + 1)
       (set_act_time (deque_append (in_now i - t0)%float (act_time s)) s),
     Raised ValueError).
Proof.
  intros H Hd. unfold step_to_wait; unfold_m. rewrite H. cbn.
  rewrite Hd. reflexivity.
Qed.

Lemma step_to_wait_active i s t0 :
  act_start_time s = Some t0 -> done s = false ->
  step_to_wait cfg i s
  = let s1 := entered cfg i t0 s in
    let act := np_clip (effective_action cfg i s) action_low action_high in
    if negb (box_contains act) then (s1, Raised AssertionError)
    else match issue_order cfg act (in_position i) (in_open_orders i) s1 with
         | (s2, Returned _) =>
             (accounted cfg i (deliver_all cfg (settle_events cfg i s) s2),
              Returned (terminal cfg s))
         | (s2, Raised e) => (s2, Raised e)
         | (s2, Blocked) => (s2, Blocked)
         end.
Proof.
  intros H Hd. unfold step_to_wait, account; unfold_m. rewrite H.
  env_simpl. rewrite Hd.
  change (last_step cfg (set_step_num (step_num s + 1) (set_act_time
            (deque_append (in_now i - t0)%float (act_time s)) s)))
    with (terminal cfg s).
  unfold entered, effective_action, settle_events.
  destruct (terminal cfg s); destruct (negb _); try reflexivity;
    env_simpl; destruct (issue_order _ _ _ _ _) as [s2 [[]|e|]];
    reflexivity.
Qed.

Lemma queue_get_eq evs s :
  queue_get cfg evs s
  = let s1 := deliver_all cfg evs s in
    match data_q s1 with
    | None => (s1, Raised AttributeError)
    | Some [] => (s1, Blocked)
    | Some (o :: q) => (set_data_q (Some q) s1, Returned o)
    end.
Proof.
  unfold queue_get; unfold_m. cbn.
  destruct (data_q _) as [[|o q]|]; reflexivity.
Qed.

Lemma step_from_wait_eq i d s :
  step_from_wait cfg i d s
  = let s1 := deliver_all cfg (in_wait i) s in
    match data_q s1 with
    | None => (s1, Raised AttributeError)
    | Some [] => (s1, Blocked)
    | Some (o :: q) =>
        (stepped i d o q s1,
         Returned {| r_observation := o;
                     r_reward := reward s1;
                     r_done := d;
                     r_info := {| info_step := step_num s1;
                                  info_episode_profit := episode_profit s1;
                                  info_position_desired := pos_desired s1;
                                  info_position_actual := in_info_position i;
                                  info_unrealized_gain := unrealized_gain s1;
                                  info_avg_cost := cost_or_0 (in_info_cost i);
                                  info_agent_time_last :=
                                    List.last (act_time s1) nan |} |})
    end.
Proof.
  unfold step_from_wait. unfold bind at 1. rewrite queue_get_eq. cbn zeta.
  destruct (data_q _) as [[|o q]|]; reflexivity.
Qed.

End StepFacts.

(** ** Reset and step, by cases *)

Section CallFacts.

Variable cfg : Config.

Lemma step_eq i s :
  _step cfg i s
  = match step_to_wait cfg i s with
    | (s_w, Returned d) => step_from_wait cfg i d s_w
    | (s', Raised e) => (s', Raised e)
    | (s', Blocked) => (s', Blocked)
    end.
Proof. reflexivity. Qed.

Lemma reset_eq i s :
  _reset cfg i s
  = let s1 := deliver_all cfg (rin_settle i)
                (ib_call Flatten (set_done true s)) in
    let s2 := deliver_all cfg (rin_wait i) (cleared s1) in
    match data_q s2 with
    | None => (s2, Raised AttributeError)
    | Some [] => (s2, Blocked)
    | Some (o :: q) => (restarted i o q s2, Returned o)
    end.
Proof.
  unfold _reset. unfold flatten, sleep.
  repeat (unfold bind at 1; unfold modify at 1).
  rewrite queue_get_eq. cbv zeta.
  destruct (data_q _) as [[|o q]|]; reflexivity.
Qed.

(** What [issue_order] leaves alone. *)
Lemma issue_order_view act position open_orders s s' o :
  issue_order cfg act position open_orders s = (s', o) ->
  (data_q s', profit s', episode_profit s', reward s', done s', step_num s',
   _finish_on_next_step s', act_start_time s', act_time s', action s')
  = (data_q s, profit s, episode_profit s, reward s, done s, step_num s,
     _finish_on_next_step s, act_start_time s, act_time s, action s).
Proof.
  rewrite issue_order_eq.
  destruct (_ && _).
  - destruct (py_round _); intros H; inversion H; reflexivity.
  - intros H; inversion H; reflexivity.
Qed.

Lemma step_to_wait_returned i s s_w d :
  step_to_wait cfg i s = (s_w, Returned d) ->
  exists t0 s2,
    act_start_time s = Some t0 /\ done s = false /\ d = terminal cfg s /\
    box_contains (np_clip (effective_action cfg i s) action_low action_high)
    = true /\
    issue_order cfg (np_clip (effective_action cfg i s) action_low action_high)
      (in_position i) (in_open_orders i) (entered cfg i t0 s)
    = (s2, Returned tt) /\
    s_w = accounted cfg i (deliver_all cfg (settle_events cfg i s) s2).
Proof.
  destruct (act_start_time s) as [t0|] eqn:Ht0;
    [|rewrite step_to_wait_never_reset by assumption; discriminate].
  destruct (done s) eqn:Hd;
    [rewrite (step_to_wait_done cfg i s t0) by assumption; discriminate|].
  rewrite (step_to_wait_active cfg i s t0) by assumption. cbv zeta.
  destruct (box_contains _) eqn:Hb; [|discriminate]. cbn [negb].
  destruct (issue_order _ _ _ _ _) as [s2 [[]|e|]] eqn:Hio; try discriminate.
  intros H; injection H as <- <-. exists t0, s2. auto 10.
Qed.

End CallFacts.

(** ** Attribute by attribute: what callbacks keep *)

Section CallbackFields.

Variable cfg : Config.
Variable evs : list GwEvent.
Variable s : Env.

Let view : caller_view (deliver_all cfg evs s) = caller_view s :=
  deliver_all_caller_view cfg evs s.

Lemma deliver_all_episode_profit :
  episode_profit (deliver_all cfg evs s) = episode_profit s.
Proof. pose proof view as H. unfold caller_view in H. congruence. Qed.

Lemma deliver_all_reward : reward (deliver_all cfg evs s) = reward s.
Proof. pose proof view as H. unfold caller_view in H. congruence. Qed.

Lemma deliver_all_observation :
  observation (deliver_all cfg evs s) = observation s.
Proof. pose proof view as H. unfold caller_view in H. congruence. Qed.

Lemma deliver_all_pos_desired :
  pos_desired (deliver_all cfg evs s) = pos_desired s.
Proof. pose proof view as H. unfold caller_view in H. congruence. Qed.

Lemma deliver_all_done : done (deliver_all cfg evs s) = done s.
Proof. pose proof view as H. unfold caller_view in H. congruence. Qed.

Lemma deliver_all_step_num : step_num (deliver_all cfg evs s) = step_num s.
Proof. pose proof view as H. unfold caller_view in H. congruence. Qed.

Lemma deliver_all_finish :
  _finish_on_next_step (deliver_all cfg evs s) = _finish_on_next_step s.
Proof. pose proof view as H. unfold caller_view in H. congruence. Qed.

Lemma deliver_all_act_start_time :
  act_start_time (deliver_all cfg evs s) = act_start_time s.
Proof. pose proof view as H. unfold caller_view in H. congruence. Qed.

Lemma deliver_all_act_time : act_time (deliver_all cfg evs s) = act_time s.
Proof. pose proof view as H. unfold caller_view in H. congruence. Qed.

Lemma deliver_all_action : action (deliver_all cfg evs s) = action s.
Proof. pose proof view as H. unfold caller_view in H. congruence. Qed.

Lemma deliver_all_ib_calls : ib_calls (deliver_all cfg evs s) = ib_calls s.
Proof. pose proof view as H. unfold caller_view in H. congruence. Qed.

Lemma deliver_all_terminal :
  terminal cfg (deliver_all cfg evs s) = terminal cfg s.
Proof.
  unfold terminal, last_step. env_simpl.
  rewrite deliver_all_finish, deliver_all_step_num. reflexivity.
Qed.

End CallbackFields.

Create Rewrite HintDb env.
#[local] Hint Rewrite deliver_all_episode_profit deliver_all_reward
  deliver_all_observation deliver_all_pos_desired deliver_all_done
  deliver_all_step_num deliver_all_finish deliver_all_act_start_time
  deliver_all_act_time deliver_all_action deliver_all_ib_calls
  deliver_all_profit deliver_all_terminal : env.

(** Lines 235-237 and the callbacks that preempt them, side by side: the
    callbacks run as they would anyway, the reward is the accumulator
    before them, and the episode profit has grown by the accumulator as it
    stood between the two groups. *)
Lemma accounted_eq cfg i s :
  accounted cfg i s
  = set_profit 0%float
      (set_episode_profit
         (episode_profit s + fsum (profit s) (fills (in_booking i)))%float
         (set_reward (Some (profit s))
            (deliver_all cfg (in_booking i ++ in_zeroing i) s))).
Proof.
  unfold accounted, rewarded. cbv zeta.
  rewrite !deliver_all_set_reward. env_simpl.
  rewrite deliver_all_episode_profit, deliver_all_profit.
  rewrite deliver_all_set_episode_profit, deliver_all_set_reward.
  rewrite deliver_all_app. reflexivity.
Qed.

#[local] Hint Rewrite accounted_eq : env.

Ltac env_norm := repeat (env_simpl; autorewrite with env in * ).

(** ** Profit accounting *)

Section Accounting.

Variable cfg : Config.

(** A [step] that returns, taken apart. *)
Lemma step_returned i s s' r :
  _step cfg i s = (s', Returned r) ->
  exists s_w s1 o q,
    step_to_wait cfg i s = (s_w, Returned (terminal cfg s)) /\
    s1 = deliver_all cfg (in_wait i) s_w /\
    data_q s1 = Some (o :: q) /\
    s' = stepped i (terminal cfg s) o q s1 /\
    r_observation r = o /\ r_reward r = reward s_w /\
    r_done r = terminal cfg s.
Proof.
  rewrite step_eq.
  destruct (step_to_wait cfg i s) as [s_w [d|e|]] eqn:Hw; try discriminate.
  pose proof Hw as Hw'.
  apply step_to_wait_returned in Hw' as (t0 & s2 & _ & _ & -> & _).
  rewrite step_from_wait_eq. cbv zeta.
  destruct (data_q (deliver_all cfg (in_wait i) s_w)) as [[|o q]|] eqn:Hq;
    try discriminate.
  intros H; injection H as <- <-.
  exists s_w, (deliver_all cfg (in_wait i) s_w), o, q.
  cbn [r_observation r_reward r_done]. rewrite deliver_all_reward.
  auto 10.
Qed.

(** The accumulator as line 235 reads it and as line 236 reads it, and
    after line 237. *)
Lemma step_to_wait_accounts i s s_w d :
  step_to_wait cfg i s = (s_w, Returned d) ->
  let read := fsum (profit s) (fills (settle_events cfg i s)) in
  reward s_w = Some read /\
  episode_profit s_w
  = (episode_profit s + fsum read (fills (in_booking i)))%float /\
  profit s_w = 0%float.
Proof.
  intros H.
  apply step_to_wait_returned in H as (t0 & s2 & _ & _ & _ & _ & Hio & ->).
  apply issue_order_view in Hio. env_simpl.
  injection Hio as _ Hp Hep _ _ _ _ _ _ _.
  cbv zeta. env_norm. rewrite Hp, Hep. auto.
Qed.

(** The accumulator when a call that zeroes it returns: the fills that
    arrived while the call was waiting for its observation. *)
Lemma profit_after_call c s s' os :
  zeroes_profit c = true ->
  call cfg c s = (s', Returned os) ->
  profit s' = fsum 0%float (fills (wait_of c)).
Proof.
  destruct c as [i|i| | |]; try discriminate; intros _; cbn [call wait_of].
  - unfold bind at 1. rewrite reset_eq. cbv zeta.
    destruct (data_q _) as [[|o q]|]; try discriminate.
    unfold ret. intros H; injection H as <- _. env_norm. reflexivity.
  - unfold bind at 1.
    destruct (_step cfg i s) as [s1 [r|e|]] eqn:Hs; try discriminate.
    unfold ret. intros H; injection H as <- _.
    apply step_returned in Hs
      as (s_w & s1' & o & q & Hw & -> & _ & -> & _).
    apply step_to_wait_accounts in Hw as (_ & _ & Hp).
    env_norm. rewrite Hp. reflexivity.
Qed.

(** The episode profit that [info] reports is the one line 236 stored. *)
Lemma step_returned_info i s s' r :
  _step cfg i s = (s', Returned r) ->
  info_episode_profit (r_info r) = episode_profit s' /\
  reward s' = r_reward r.
Proof.
  rewrite step_eq.
  destruct (step_to_wait cfg i s) as [s_w [d|e|]]; try discriminate.
  rewrite step_from_wait_eq. cbv zeta.
  destruct (data_q (deliver_all cfg (in_wait i) s_w)) as [[|o q]|];
    try discriminate.
  intros H; injection H as <- <-.
  cbn [r_info r_reward info_episode_profit]. env_norm. auto.
Qed.


End Accounting.


(** ** Stepping when done *)

Section SteppingWhenDone.

Variable cfg : Config.

(** C2, as the code has it.  A [step] made in the done state raises, and
    leaves the per-step profit, the episode profit, the desired position,
    the queue and the requests to the gateway as they were.  But the call
    has been counted before the check of line 205: once a [reset] has
    happened, the step counter is one higher and the latency history has
    one more sample.  (Before any [reset] the call fails on the missing
    start time and changes nothing.) *)
Theorem step_when_done (i : StepIn) (s : Env) :
  done s = true ->
  exists s' e,
    _step cfg i s = (s', Raised e) /\
    profit s' = profit s /\
    episode_profit s' = episode_profit s /\
    pos_desired s' = pos_desired s /\
    reward s' = reward s /\
    data_q s' = data_q s /\
    ib_calls s' = ib_calls s /\
    done s' = true /\
    match act_start_time s with
    | Some t0 =>
        e = ValueError /\
        step_num s' = step_num s + 1 /\
        act_time s' = deque_append (in_now i - t0)%float (act_time s)
    | None => e = TypeError /\ s' = s
    end.
Proof.
  intros Hd. rewrite step_eq.
  destruct (act_start_time s) as [t0|] eqn:Ht0.
  - rewrite (step_to_wait_done cfg i s t0) by assumption.
    eexists; eexists; split; [reflexivity|]. env_simpl. auto 12.
  - rewrite step_to_wait_never_reset by assumption.
    exists s, TypeError. auto 12.
Qed.

End SteppingWhenDone.

Lemma step_when_done_witness :
  exists s' e,
    _step cfg0 (sin0 0.5 [ev_bar]) env_done = (s', Raised e) /\
    profit s' = profit env_done /\
    episode_profit s' = episode_profit env_done /\
    pos_desired s' = pos_desired env_done /\
    reward s' = reward env_done /\
    data_q s' = data_q env_done /\
    ib_calls s' = ib_calls env_done /\
    done s' = true /\
    e = ValueError /\
    step_num s' = step_num env_done + 1 /\
    act_time s' = deque_append (1001 - 1002)%float (act_time env_done).
Proof.
  exact (step_when_done cfg0 (sin0 0.5 [ev_bar]) env_done eq_refl).
Defined.

(** C2 as stated fails: on the environment that has just finished an
    episode, a further [step] raises, yet it has incremented the step
    counter and appended to the latency history. *)
Lemma step_when_done_is_counted :
  done env_done = true /\
  exists s',
    _step cfg0 (sin0 0.5 [ev_bar]) env_done = (s', Raised ValueError) /\
    step_num env_done = 2 /\ step_num s' = 3 /\
    List.length (act_time env_done) = 2%nat /\
    List.length (act_time s') = 3%nat.
Proof.
  split; [reflexivity|].
  eexists. split; [vm_compute; reflexivity|].
  repeat split.
Qed.

(** ** The queue *)

Section Queue.

Variable cfg : Config.

(** A callback adds at most one item to the queue, at its end, and never
    Python's [None]; it neither creates nor removes the queue. *)
Lemma deliver_data_q e s :
  exists l,
    data_q (deliver cfg e s) = option_map (fun q => q ++ l) (data_q s) /\
    Forall (fun o => o <> None) l.
Proof.
  assert (Hnil : forall s' : Env, data_q s' = data_q s ->
            exists l, data_q s' = option_map (fun q => q ++ l) (data_q s) /\
                      Forall (fun o : option Obs => o <> None) l).
  { intros s' ->. exists []. split; [|constructor].
    destruct (data_q s); cbn [option_map]; rewrite ?app_nil_r; reflexivity. }
  destruct e as [bar position cost connected|p|msg]; cbn [deliver];
    [|apply Hnil; reflexivity|apply Hnil; reflexivity].
  unfold _on_mktdata.
  destruct (cooked cfg bar position cost) as [gain obs].
  unfold enqueues. env_simpl.
  destruct obs as [o|], connected, (done s), (data_q s) as [q|] eqn:Hq;
    cbn [andb negb]; try (apply Hnil; env_simpl; congruence).
  exists [Some o]. split.
  - destruct (1 <? _); reflexivity.
  - repeat constructor. discriminate.
Qed.

Lemma deliver_all_data_q evs s :
  exists l,
    data_q (deliver_all cfg evs s) = option_map (fun q => q ++ l) (data_q s)
    /\ Forall (fun o => o <> None) l.
Proof.
  revert s; induction evs as [|e evs IH]; intros s.
  - exists []. split; [|constructor]. cbn.
    destruct (data_q s); cbn; rewrite ?app_nil_r; reflexivity.
  - change (deliver_all cfg (e :: evs) s)
      with (deliver_all cfg evs (deliver cfg e s)).
    destruct (IH (deliver cfg e s)) as (l2 & H2 & F2).
    destruct (deliver_data_q e s) as (l1 & H1 & F1).
    exists (l1 ++ l2). split; [|apply Forall_app; auto].
    rewrite H2, H1. destruct (data_q s); cbn; [|reflexivity].
    rewrite app_assoc. reflexivity.
Qed.

Lemma deliver_all_data_q_some evs s :
  data_q s <> None -> data_q (deliver_all cfg evs s) <> None.
Proof.
  destruct (deliver_all_data_q evs s) as (l & H & _). rewrite H.
  destruct (data_q s); cbn; congruence.
Qed.

Lemma deliver_all_queue_ok evs s :
  queue_ok s -> queue_ok (deliver_all cfg evs s).
Proof.
  unfold queue_ok.
  destruct (deliver_all_data_q evs s) as (l & H & F). rewrite H.
  destruct (data_q s); cbn; [|trivial].
  intros Hq. apply Forall_app. auto.
Qed.

Lemma accounted_data_q_some i s :
  data_q s <> None -> data_q (accounted cfg i s) <> None.
Proof.
  intros H. rewrite accounted_eq. env_simpl.
  apply deliver_all_data_q_some. exact H.
Qed.

Lemma accounted_queue_ok i s : queue_ok s -> queue_ok (accounted cfg i s).
Proof.
  intros H. rewrite accounted_eq. unfold queue_ok. env_simpl.
  apply deliver_all_queue_ok. exact H.
Qed.

Lemma deliver_all_active evs s : active s -> active (deliver_all cfg evs s).
Proof.
  unfold active. intros (Hd & Ht & Hq). env_norm.
  auto using deliver_all_data_q_some.
Qed.

End Queue.

(** The queue is still there after callbacks and accounting. *)
Ltac queue_kept :=
  repeat first [ apply deliver_all_data_q_some
               | apply accounted_data_q_some
               | progress env_simpl ].

(** ** The last step of an episode *)

Section LastStep.

Variable cfg : Config.
Hypothesis cfg_ok : valid_config cfg.

Lemma clip_zero : np_clip 0 action_low action_high = 0%float.
Proof. reflexivity. Qed.

(** The last step, up to its wait. *)
Lemma step_to_wait_terminal i s t0 :
  act_start_time s = Some t0 -> done s = false -> terminal cfg s = true ->
  step_to_wait cfg i s
  = (accounted cfg i
       (deliver_all cfg (in_settle i)
          (if may_order cfg i
           then ib_call (OrderTarget 0)
                  (set_pos_desired 0 (ib_call CancelAll (entered cfg i t0 s)))
           else warn (Constipation (in_position i) (in_open_orders i))
                  (ib_call CancelAll (entered cfg i t0 s)))),
     Returned true).
Proof.
  intros Ht Hd Hl. rewrite (step_to_wait_active cfg i s t0) by assumption.
  cbv zeta. unfold effective_action, settle_events. rewrite Hl.
  rewrite clip_zero. change (negb (box_contains 0)) with false. cbv iota.
  rewrite issue_order_eq. fold (may_order cfg i).
  destruct (unit_targets (max_quantity cfg) (proj1 cfg_ok)) as (H0 & _).
  rewrite H0. destruct (may_order cfg i); reflexivity.
Qed.

Lemma terminal_is_forced i s :
  active s -> terminal cfg s = true -> forced_terminal cfg i s.
Proof.
  intros (Hd & Ht & Hq) Hl.
  destruct (act_start_time s) as [t0|] eqn:Ht0; [clear Ht|congruence].
  pose proof (step_to_wait_terminal i s t0 Ht0 Hd Hl) as Hw.
  eexists. split; [exact Hw|].
  assert (Hact : effective_action cfg i s = 0%float)
    by (unfold effective_action; rewrite Hl; reflexivity).
  split; [|split; [|split; [|split]]].
  - destruct (may_order cfg i); env_norm; congruence.
  - destruct (may_order cfg i); env_norm; rewrite <- ?app_assoc; reflexivity.
  - intros ->. env_norm. reflexivity.
  - destruct (may_order cfg i); env_norm; assumption.
  - rewrite step_eq, Hw, step_from_wait_eq. cbv zeta.
    match goal with |- context [data_q ?x] =>
      assert (Hs : data_q x <> None) end.
    { queue_kept.
      destruct (may_order cfg i); env_simpl; assumption. }
    match type of Hs with data_q ?x <> None =>
      destruct (data_q x) as [[|o q]|] eqn:Hq'; cbv beta iota;
      [reflexivity| |congruence] end.
    env_simpl. auto.
Qed.

End LastStep.

(** ** Counting the steps of an episode *)

Section Counting.

Variable cfg : Config.

(** What every call to [step] does once a [reset] has happened, however
    it ends: it is counted, and start time and queue stay in place. *)
Lemma step_counts i s s' out :
  act_start_time s <> None ->
  _step cfg i s = (s', out) ->
  step_num s' = step_num s + 1 /\
  act_start_time s' <> None /\
  (data_q s <> None -> data_q s' <> None).
Proof.
  intros Ht. destruct (act_start_time s) as [t0|] eqn:Ht0; [clear Ht|congruence].
  rewrite step_eq. destruct (done s) eqn:Hd.
  - rewrite (step_to_wait_done cfg i s t0) by assumption.
    intros H; injection H as <- _. env_simpl. rewrite Ht0.
    repeat split; auto; congruence.
  - rewrite (step_to_wait_active cfg i s t0) by assumption. cbv zeta.
    destruct (negb _).
    { intros H; injection H as <- _. env_simpl. rewrite Ht0.
      repeat split; auto; congruence. }
    destruct (issue_order _ _ _ _ _) as [s2 o2] eqn:Hio.
    apply issue_order_view in Hio. env_simpl.
    injection Hio as Hq _ _ _ _ Hn _ Hst _ _.
    destruct o2 as [[]|e|].
    + rewrite step_from_wait_eq. cbv zeta.
      match goal with |- context [data_q ?x] =>
        assert (Hx : step_num x = step_num s + 1 /\
                     act_start_time x <> None /\
                     (data_q s <> None -> data_q x <> None)) end.
      { env_norm. rewrite Hn, Hst, Ht0. repeat split; try discriminate.
        intros Hs. queue_kept. congruence. }
      destruct Hx as (Hx1 & Hx2 & Hx3).
      destruct (data_q (deliver_all cfg (in_wait i) _)) as [[|o q]|] eqn:Hdq;
        intros H; injection H as <- _; env_simpl; rewrite ?Hdq;
        repeat split; auto; congruence.
    + intros H; injection H as <- _. rewrite Hn, Hst, Hq, Ht0.
      repeat split; auto; congruence.
    + intros H; injection H as <- _. rewrite Hn, Hst, Hq, Ht0.
      repeat split; auto; congruence.
Qed.

(** Between two resets the step counter counts the calls to [step]. *)
Lemma run_counts cs : forall s s' os,
  existsb is_reset cs = false ->
  act_start_time s <> None ->
  data_q s <> None ->
  run cfg cs s = Some (s', os) ->
  step_num s' = step_num s + count_steps cs /\
  act_start_time s' <> None /\ data_q s' <> None.
Proof.
  unfold count_steps.
  induction cs as [|c cs IH]; intros s s' os Hr Ht Hq Hrun.
  - cbn in Hrun. injection Hrun as <- _. cbn. rewrite Z.add_0_r. auto.
  - cbn [existsb] in Hr. apply orb_false_iff in Hr as [Hc Hr].
    cbn [run] in Hrun.
    assert (Hstep : forall s1 o1, call cfg c s = (s1, o1) ->
              step_num s1 = step_num s + (if is_step c then 1 else 0) /\
              act_start_time s1 <> None /\ data_q s1 <> None).
    { destruct c as [r|i| |evs|e]; cbn [call is_step]; intros s1 o1;
        try discriminate.
      - unfold bind at 1.
        destruct (_step cfg i s) as [s2 o2] eqn:Hs.
        apply step_counts in Hs as (H1 & H2 & H3); [|assumption].
        destruct o2; intros H; injection H as <- _; auto.
      - unfold_m. intros H; injection H as <- _. env_simpl.
        rewrite Z.add_0_r. auto.
      - unfold _close; unfold_m. intros H; injection H as <- _. env_norm.
        rewrite Z.add_0_r. repeat split; auto.
        pose proof (deliver_all_data_q_some cfg evs
                      (ib_call Flatten (set_done true s))) as Hs.
        env_simpl. destruct (deliver_all_data_q cfg evs
                      (ib_call Flatten (set_done true s))) as (l & Hl & _).
        env_simpl. rewrite Hl. destruct (data_q s); cbn; congruence.
      - unfold_m. intros H; injection H as <- _.
        change (deliver cfg e s) with (deliver_all cfg [e] s). env_norm.
        rewrite Z.add_0_r. auto using deliver_all_data_q_some. }
    destruct (call cfg c s) as [s1 o1] eqn:Hcall.
    destruct (Hstep s1 o1 eq_refl) as (Hn & Ht1 & Hq1).
    assert (Hlen : Z.of_nat (List.length (filter is_step (c :: cs)))
                   = (if is_step c then 1 else 0)
                     + Z.of_nat (List.length (filter is_step cs))).
    { cbn [filter]. destruct (is_step c); cbn [List.length]; lia. }
    rewrite Hlen.
    destruct o1 as [os1|e|]; [|(eapply IH in Hrun; eauto; destruct Hrun as (? & ? & ?); repeat split; auto; lia)|discriminate].
    destruct (run cfg cs s1) as [[s2 os2]|] eqn:Hrun2; [|discriminate].
    injection Hrun as <- _.
    eapply IH in Hrun2; eauto.
    destruct Hrun2 as (Hn2 & ? & ?). repeat split; auto; lia.
Qed.

End Counting.

(** ** Forced termination *)

Section ForcedTermination.

Variable cfg : Config.
Hypothesis cfg_ok : valid_config cfg.

(** A [reset] that returns, taken apart. *)
Lemma reset_returned r s s0 o :
  _reset cfg r s = (s0, Returned o) ->
  exists q,
    let s1 := deliver_all cfg (rin_settle r)
                (ib_call Flatten (set_done true s)) in
    let s2 := deliver_all cfg (rin_wait r) (cleared s1) in
    data_q s2 = Some (o :: q) /\ s0 = restarted r o q s2.
Proof.
  rewrite reset_eq. cbv zeta.
  destruct (data_q _) as [[|o' q]|] eqn:Hq; try discriminate.
  intros H; injection H as <- <-. exists q. auto.
Qed.

Lemma reset_starts_episode r s s0 o :
  _reset cfg r s = (s0, Returned o) ->
  active s0 /\ step_num s0 = 0 /\ _finish_on_next_step s0 = false.
Proof.
  intros H. apply reset_returned in H as (q & Hq & ->). cbv zeta.
  unfold active. env_norm. repeat split; congruence.
Qed.

(** C3.  With [episode_steps = N], the [N]-th call to [step] after a
    [reset] (whatever callbacks, [finish_on_next_step] or [close] calls and
    failed steps lie between), made while the episode is still active, is
    the forced last step; and so is the next [step] after
    [finish_on_next_step], whatever callbacks arrive in between.  The forced
    last step stores the action 0, cancels outstanding orders, issues no
    target other than 0, raises nothing, and returns [done = True] once an
    observation is in the queue. *)
Theorem last_step_is_forced :
  (forall N r s_pre s0 o cs s os i,
      episode_steps cfg = Some N ->
      _reset cfg r s_pre = (s0, Returned o) ->
      existsb is_reset cs = false ->
      count_steps cs = N - 1 ->
      run cfg cs s0 = Some (s, os) ->
      done s = false ->
      forced_terminal cfg i s) /\
  (forall s evs i,
      active s ->
      forced_terminal cfg i
        (deliver_all cfg evs (fst (finish_on_next_step s)))).
Proof.
  split.
  - intros N r s_pre s0 o cs s os i HN Hreset Hnr Hcount Hrun Hd.
    apply reset_starts_episode in Hreset as ((_ & Ht0 & Hq0) & Hn0 & _).
    destruct (run_counts cfg cs s0 s os Hnr Ht0 Hq0 Hrun) as (Hn & Ht & Hq).
    apply (terminal_is_forced cfg cfg_ok); [unfold active; auto|].
    unfold terminal, last_step. env_simpl. rewrite HN.
    replace (N <=? step_num s + 1) with true; [apply orb_true_r|].
    symmetry. apply Z.leb_le. lia.
  - intros s evs i Ha.
    apply (terminal_is_forced cfg cfg_ok).
    + apply deliver_all_active. destruct Ha as (Hd & Ht & Hq).
      unfold active. unfold_m. env_simpl. auto.
    + rewrite deliver_all_terminal. unfold terminal, last_step.
      unfold_m. env_simpl. reflexivity.
Qed.

End ForcedTermination.

Lemma cfg0_ok : valid_config cfg0.
Proof. unfold valid_config, MAX_INSTRUMENT_QUANTITY. cbn. lia. Qed.

Lemma last_step_is_forced_witness :
  forced_terminal cfg0 (sin0 0.75 [ev_bar]) env0_stepped /\
  forced_terminal cfg0 (sin0 0.75 [ev_bar])
    (deliver_all cfg0 [OnOrder 1.5] (fst (finish_on_next_step env0))).
Proof.
  destruct (last_step_is_forced cfg0 cfg0_ok) as [H1 H2]. split.
  - apply (H1 2 rin0 (init 3) env0 (Some (bar_array bar0))
              [Callback (OnOrder 2.5); CallStep (sin0 0.5 [ev_bar])]
              env0_stepped
              [Some (bar_array bar0)]);
      vm_compute; reflexivity.
  - apply H2. unfold active. vm_compute. repeat split; discriminate.
Defined.

(** ** The wait for the next observation *)

Section Waiting.

Variable cfg : Config.

(** While the flag is down, a ready bar puts an observation in the queue,
    and it is still there after the callbacks that follow. *)
Lemma ready_bar_enqueued evs e s :
  In e evs -> ready cfg e -> done s = false -> data_q s <> None ->
  exists o q, data_q (deliver_all cfg evs s) = Some (o :: q).
Proof.
  intros Hin Hr Hd Hq.
  apply in_split in Hin as (l1 & l2 & ->).
  rewrite deliver_all_app.
  change (e :: l2) with ([e] ++ l2). rewrite deliver_all_app.
  set (s1 := deliver_all cfg l1 s).
  assert (Hd1 : done s1 = false) by (unfold s1; env_norm; assumption).
  assert (Hq1 : data_q s1 <> None)
    by (apply deliver_all_data_q_some; assumption).
  destruct (deliver_all_data_q cfg l2 (deliver_all cfg [e] s1))
    as (l & Hl & _).
  rewrite Hl. clear Hl.
  destruct e as [bar position cost connected| |]; try contradiction.
  destruct Hr as [-> Hob].
  cbn [deliver_all fold_left deliver]. unfold _on_mktdata.
  destruct (cooked cfg bar position cost) as [gain [ob|]];
    [|cbn in Hob; congruence].
  unfold enqueues. env_simpl. rewrite Hd1.
  destruct (data_q s1) as [q1|]; [|congruence]. cbn [andb negb].
  assert (Hne : exists o q, (q1 ++ [Some ob]) ++ l = o :: q).
  { destruct q1; cbn; eauto. }
  destruct Hne as (o & q & Hne). exists o, q.
  destruct (1 <? _); env_simpl; cbn [option_map]; rewrite Hne; reflexivity.
Qed.

Lemma step_to_wait_queue i s s_w d :
  step_to_wait cfg i s = (s_w, Returned d) ->
  done s_w = false /\ (data_q s <> None -> data_q s_w <> None).
Proof.
  intros H.
  apply step_to_wait_returned in H as (t0 & s2 & _ & Hd & _ & _ & Hio & ->).
  apply issue_order_view in Hio. env_simpl.
  injection Hio as Hq _ _ _ Hdn _ _ _ _ _.
  env_norm. split; [congruence|].
  intros Hs. queue_kept. congruence.
Qed.

(** A ready bar that arrives during the wait makes [step] return. *)
Lemma step_returns_on_ready_bar i s s_w d e :
  step_to_wait cfg i s = (s_w, Returned d) ->
  data_q s <> None -> In e (in_wait i) -> ready cfg e ->
  exists s' r, _step cfg i s = (s', Returned r).
Proof.
  intros Hw Hs Hin Hr.
  destruct (step_to_wait_queue _ _ _ _ Hw) as (Hd & Hq).
  rewrite step_eq, Hw, step_from_wait_eq. cbv zeta.
  destruct (ready_bar_enqueued (in_wait i) e s_w Hin Hr Hd (Hq Hs))
    as (o & q & ->).
  eauto.
Qed.


End Waiting.


(** ** A clipped action times a legal size is a finite float *)

Lemma digits2_pos_lt p : Zpos p < 2 ^ Zpos (digits2_pos p).
Proof.
  induction p as [p IH|p IH|]; cbn [digits2_pos];
    rewrite ?Pos2Z.inj_succ, ?Z.pow_succ_r by lia; lia.
Qed.

Lemma digits2_pos_le p : forall k,
  0 <= k -> Zpos p < 2 ^ k -> Zpos (digits2_pos p) <= k.
Proof.
  induction p as [p IH|p IH|]; intros k Hk Hp; cbn [digits2_pos];
    rewrite ?Pos2Z.inj_succ.
  - assert (k <> 0) by (intros ->; cbn in Hp; lia).
    replace k with (Z.succ (k - 1)) in Hp by lia.
    rewrite Z.pow_succ_r in Hp by lia.
    specialize (IH (k - 1)). lia.
  - assert (k <> 0) by (intros ->; cbn in Hp; lia).
    replace k with (Z.succ (k - 1)) in Hp by lia.
    rewrite Z.pow_succ_r in Hp by lia.
    specialize (IH (k - 1)). lia.
  - assert (k <> 0) by (intros ->; cbn in Hp; lia). lia.
Qed.

Lemma Zdigits2_le m k : 0 <= k -> 0 <= m < 2 ^ k -> 0 <= Zdigits2 m <= k.
Proof.
  intros Hk Hm. destruct m as [|p|p]; cbn [Zdigits2]; try lia.
  split; [lia|]. apply digits2_pos_le; lia.
Qed.

Lemma iter_pos_inv {A} (f : A -> A) (P : A -> Prop) :
  (forall x, P x -> P (f x)) -> forall p x, P x -> P (iter_pos f p x).
Proof.
  intros Hf. induction p as [p IH|p IH|]; intros x Hx; cbn [iter_pos]; auto.
Qed.

Lemma shr_1_bounds B mrs :
  0 <= shr_m mrs <= B -> 0 <= shr_m (shr_1 mrs) <= B.
Proof.
  destruct mrs as [m r s]. cbn [shr_m shr_1].
  destruct m as [|[p|p|]|[p|p|]]; cbn [shr_m]; lia.
Qed.

Lemma shr_bounds B mrs e n mrs' e' :
  shr mrs e n = (mrs', e') ->
  0 <= shr_m mrs <= B ->
  0 <= shr_m mrs' <= B /\ e' = e + Z.max 0 n.
Proof.
  unfold shr. destruct n as [|p|p]; intros H Hm; injection H as <- <-;
    try (split; [assumption|lia]).
  split; [|lia].
  apply (iter_pos_inv shr_1 (fun x => 0 <= shr_m x <= B)); auto.
  apply shr_1_bounds.
Qed.

Lemma round_nearest_even_bounds m l :
  0 <= m -> 0 <= round_nearest_even m l <= m + 1.
Proof.
  intros Hm. unfold round_nearest_even.
  destruct l as [|[]]; try destruct (Z.even m); lia.
Qed.

(** Rounding a product of modest size never overflows. *)
Lemma binary_round_aux_finite sx m e :
  0 <= m < 2 ^ 106 -> e <= -90 ->
  match binary_round_aux prec emax sx m e loc_Exact with
  | S754_zero _ | S754_finite _ _ _ => True
  | _ => False
  end.
Proof.
  intros Hm He. unfold binary_round_aux.
  destruct (shr_fexp prec emax m e loc_Exact) as [mrs' e'] eqn:H1.
  unfold shr_fexp in H1.
  apply (shr_bounds (2 ^ 106 - 1)) in H1; [|cbn [shr_record_of_loc shr_m]; lia].
  destruct H1 as (Hm' & He').
  pose proof (Zdigits2_le m 106 ltac:(lia) Hm) as Hd.
  unfold fexp, emin in He'.
  change prec with 53 in *. change emax with 1024 in *.
  pose proof (round_nearest_even_bounds (shr_m mrs')
                (loc_of_shr_record mrs') (proj1 Hm')) as Hr.
  set (mr := round_nearest_even (shr_m mrs') (loc_of_shr_record mrs')) in *.
  destruct (shr_fexp 53 1024 mr e' loc_Exact) as [mrs'' e''] eqn:H2.
  unfold shr_fexp in H2.
  apply (shr_bounds (2 ^ 106)) in H2; [|cbn [shr_record_of_loc shr_m]; lia].
  destruct H2 as (Hm'' & He'').
  assert (Hmr : 0 <= mr < 2 ^ 107).
  { replace 107 with (Z.succ 106) by lia. rewrite Z.pow_succ_r by lia. lia. }
  pose proof (Zdigits2_le mr 107 ltac:(lia) Hmr) as Hd'.
  unfold fexp, emin in He''.
  destruct (shr_m mrs'') as [|p|p] eqn:Hp; [trivial| |lia].
  replace (e'' <=? 1024 - 53) with true; [trivial|].
  symmetry. apply Z.leb_le. lia.
Qed.

Lemma sizes_checked :
  upto (Z.to_nat MAX_INSTRUMENT_QUANTITY) 1 modest_size = true.
Proof. vm_compute. reflexivity. Qed.

Lemma size_is_modest q :
  1 <= q <= MAX_INSTRUMENT_QUANTITY ->
  exists m e, Prim2SF (float_of_Z q) = S754_finite false m e /\
              Zpos m < 2 ^ 53 /\ e <= -38.
Proof.
  intros Hq. pose proof (upto_spec _ _ _ q sizes_checked) as H.
  assert (Hr : 1 <= q < 1 + Z.of_nat (Z.to_nat MAX_INSTRUMENT_QUANTITY)).
  { rewrite Z2Nat.id; unfold MAX_INSTRUMENT_QUANTITY in *; lia. }
  apply H in Hr. unfold modest_size in Hr.
  destruct (Prim2SF (float_of_Z q)) as [| | |[] m e]; try discriminate.
  apply andb_true_iff in Hr as [H1 H2].
  exists m, e. split; [reflexivity|]. split; [apply Z.ltb_lt|apply Z.leb_le]; assumption.
Qed.

(** A float in the action box is a zero or a finite number of magnitude at
    most one. *)
Lemma box_contains_finite x :
  box_contains x = true ->
  match Prim2SF x with
  | S754_zero _ => True
  | S754_finite _ m e => Zpos m < 2 ^ 53 /\ e <= -52
  | _ => False
  end.
Proof.
  unfold box_contains. rewrite !leb_spec. intros H.
  apply andb_true_iff in H as [Hlo Hhi].
  pose proof (Prim2SF_valid x) as Hv.
  change (Prim2SF action_high)
    with (S754_finite false 4503599627370496 (-52)) in Hhi.
  change (Prim2SF action_low)
    with (S754_finite true 4503599627370496 (-52)) in Hlo.
  unfold SFleb in *.
  destruct (Prim2SF x) as [s|s| |s m e]; cbn [SFcompare] in *; trivial;
    try (destruct s; discriminate); try discriminate.
  cbn [valid_binary] in Hv. unfold bounded, canonical_mantissa in Hv.
  apply andb_true_iff in Hv as [Hc _]. apply Z.eqb_eq in Hc.
  unfold fexp, emin in Hc. change prec with 53 in Hc. change emax with 1024 in Hc.
  split.
  - pose proof (digits2_pos_lt m) as Hm.
    assert (Hd : Zpos (digits2_pos m) <= 53) by lia.
    apply Z.lt_le_trans with (1 := Hm).
    apply Z.pow_le_mono_r; lia.
  - destruct s.
    + destruct (Z.compare_spec (-52) e); try lia; discriminate.
    + destruct (Z.compare_spec e (-52)); try lia; discriminate.
Qed.

(** Line 225 cannot raise: the target of a clipped action is defined. *)
Lemma target_defined q x :
  1 <= q <= MAX_INSTRUMENT_QUANTITY ->
  box_contains x = true ->
  exists n, py_round (x * float_of_Z q)%float = inr n.
Proof.
  intros Hq Hx.
  destruct (size_is_modest q Hq) as (my & ey & Hy & Hmy & Hey).
  apply box_contains_finite in Hx.
  unfold py_round. rewrite mul_spec, Hy. unfold SF64mul.
  destruct (Prim2SF x) as [sx| | |sx mx ex]; try contradiction;
    cbn [SFmul]; [eauto|].
  destruct Hx as [Hmx Hex].
  pose proof (binary_round_aux_finite (xorb sx false)
                (Zpos (mx * my)) (ex + ey)) as H.
  destruct (binary_round_aux _ _ _ _ _ _); try (exfalso; apply H); eauto.
  all: try (rewrite Pos2Z.inj_mul; split; [lia|]); try lia.
  all: replace 106 with (53 + 53) by lia; rewrite Z.pow_add_r by lia; nia.
Qed.

(** ** Rounding at the halves *)

Lemma halves_checked :
  upto (Z.to_nat (2 * MAX_INSTRUMENT_QUANTITY + 1))
    (- MAX_INSTRUMENT_QUANTITY) half_to_even = true.
Proof. vm_compute. reflexivity. Qed.

Lemma halves_to_even k :
  - MAX_INSTRUMENT_QUANTITY <= k <= MAX_INSTRUMENT_QUANTITY ->
  py_round (float_of_Z k + 0.5)%float = inr (if Z.even k then k else k + 1).
Proof.
  intros Hk. apply round_is_spec.
  apply (upto_spec _ _ _ k halves_checked).
  rewrite Z2Nat.id; unfold MAX_INSTRUMENT_QUANTITY in *; lia.
Qed.

(** ** Issuing the order *)

Section Issuing.

Variable cfg : Config.
Hypothesis cfg_ok : valid_config cfg.

Lemma deliver_warnings e s :
  exists l, warnings (deliver cfg e s) = warnings s ++ l.
Proof.
  destruct e as [bar position cost connected|p|msg]; cbn [deliver].
  - unfold _on_mktdata.
    destruct (cooked cfg bar position cost) as [gain obs].
    destruct (enqueues _ _ _); [|exists []; env_simpl; symmetry; apply app_nil_r].
    env_simpl. destruct (data_q s); [|exists []; env_simpl; symmetry; apply app_nil_r].
    destruct (1 <? _); env_simpl; eauto.
    exists []. symmetry; apply app_nil_r.
  - exists []. env_simpl. symmetry; apply app_nil_r.
  - eexists. reflexivity.
Qed.

Lemma deliver_all_warnings evs s w :
  In w (warnings s) -> In w (warnings (deliver_all cfg evs s)).
Proof.
  revert s; induction evs as [|e evs IH]; intros s Hw; [assumption|].
  change (deliver_all cfg (e :: evs) s)
    with (deliver_all cfg evs (deliver cfg e s)).
  apply IH. destruct (deliver_warnings e s) as (l & ->).
  apply in_or_app. auto.
Qed.

(** A step whose clipped action passes the check of line 216 reaches its
    wait: line 225 cannot raise. *)
Lemma step_to_wait_issues i s t0 :
  act_start_time s = Some t0 -> done s = false ->
  box_contains (clipped_action cfg i s) = true ->
  exists n,
    py_round (clipped_action cfg i s * float_of_Z (max_quantity cfg))%float
    = inr n /\
    step_to_wait cfg i s
    = (accounted cfg i (deliver_all cfg (settle_events cfg i s) (ordered cfg i t0 n s)),
       Returned (terminal cfg s)).
Proof.
  intros Ht Hd Hb.
  destruct (target_defined (max_quantity cfg) _ (proj1 cfg_ok) Hb) as (n & Hn).
  exists n. split; [assumption|].
  rewrite (step_to_wait_active cfg i s t0) by assumption. cbv zeta.
  fold (clipped_action cfg i s). rewrite Hb. cbn [negb].
  rewrite issue_order_eq. fold (may_order cfg i). rewrite Hn.
  unfold ordered. destruct (may_order cfg i); reflexivity.
Qed.


Lemma step_to_wait_order i s t0 n :
  let s_w := accounted cfg i (deliver_all cfg (settle_events cfg i s)
                          (ordered cfg i t0 n s)) in
  action s_w = Some (effective_action cfg i s) /\
  (may_order cfg i = true ->
     ib_calls s_w = ib_calls s ++ [CancelAll; OrderTarget n] /\
     pos_desired s_w = n) /\
  (may_order cfg i = false ->
     ib_calls s_w = ib_calls s ++ [CancelAll] /\
     pos_desired s_w = pos_desired s /\
     In (Constipation (in_position i) (in_open_orders i)) (warnings s_w)).
Proof.
  cbv zeta. unfold ordered.
  split; [destruct (may_order cfg i); env_norm; reflexivity|].
  split; intros ->; env_norm.
  - rewrite <- app_assoc. auto.
  - repeat split. do 2 apply deliver_all_warnings. env_simpl.
    apply in_or_app. right. left. reflexivity.
Qed.

(** C5.  A [step] on an active episode whose action is a number first
    cancels the outstanding orders; it then submits a target order exactly
    when [|position| <= max_quantity + 1] and there are at most two open
    orders.  When it does not, the desired position keeps its value, a
    congestion warning is logged, and the step goes on as usual: nothing is
    raised.  With [max_quantity = 10], position 11 proceeds, position 12
    skips, and three open orders skip. *)
Theorem order_issued_iff_not_congested (i : StepIn) (s : Env) :
  active s ->
  is_nan (effective_action cfg i s) = false ->
  exists s_w n,
    step_to_wait cfg i s = (s_w, Returned (terminal cfg s)) /\
    (forall e, snd (_step cfg i s) <> Raised e) /\
    (may_order cfg i = true <->
     Z.abs (in_position i) <= max_quantity cfg + 1 /\ in_open_orders i <= 2)
    /\
    (may_order cfg i = true ->
       ib_calls s_w = ib_calls s ++ [CancelAll; OrderTarget n] /\
       pos_desired s_w = n) /\
    (may_order cfg i = false ->
       ib_calls s_w = ib_calls s ++ [CancelAll] /\
       pos_desired s_w = pos_desired s /\
       In (Constipation (in_position i) (in_open_orders i)) (warnings s_w))
    /\
    (max_quantity cfg = 10 ->
       (in_position i = 11 -> in_open_orders i <= 2 ->
        may_order cfg i = true) /\
       (in_position i = 12 -> may_order cfg i = false) /\
       (in_open_orders i = 3 -> may_order cfg i = false)).
Proof.
  intros (Hd & Ht & Hq) Hn.
  destruct (act_start_time s) as [t0|] eqn:Ht0; [clear Ht|congruence].
  destruct (step_to_wait_issues i s t0 Ht0 Hd (clip_contains _ Hn))
    as (n & _ & Hw).
  eexists. exists n. split; [exact Hw|].
  destruct (step_to_wait_order i s t0 n) as (_ & Hyes & Hno).
  split; [|split; [|split; [assumption|split; [assumption|]]]].
  - intros e. rewrite step_eq, Hw, step_from_wait_eq. cbv zeta.
    match goal with |- context [data_q ?x] =>
      assert (Hs : data_q x <> None) end.
    { apply deliver_all_data_q_some.
      apply (step_to_wait_queue cfg i s _ _ Hw). assumption. }
    match type of Hs with data_q ?x <> None =>
      destruct (data_q x) as [[|o q]|]; cbn [snd]; congruence end.
  - unfold may_order. rewrite andb_true_iff, !Z.leb_le. reflexivity.
  - intros Hmq. unfold may_order. rewrite Hmq.
    repeat split.
    + intros -> Ho. apply andb_true_iff. split; apply Z.leb_le; cbn; lia.
    + intros ->. reflexivity.
    + intros ->. apply andb_false_r.
Qed.

(** C6.  When a [step] issues an order, the desired position is the
    clipped action times [max_quantity], rounded to an integer by the one
    rule of [py_round]: to the nearest integer, halves to the even
    neighbour.  With [max_quantity = 10], the action 0.55 gives 6 and the
    action 0.25 gives 2, always. *)
Theorem desired_position_is_rounded_target
    (i : StepIn) (s s_w : Env) (d : bool) :
  step_to_wait cfg i s = (s_w, Returned d) ->
  may_order cfg i = true ->
  py_round (clipped_action cfg i s * float_of_Z (max_quantity cfg))%float
  = inr (pos_desired s_w) /\
  ib_calls s_w = ib_calls s ++ [CancelAll; OrderTarget (pos_desired s_w)] /\
  (max_quantity cfg = 10 ->
     (effective_action cfg i s = 0x1.199999999999ap-1%float ->
      pos_desired s_w = 6) /\
     (effective_action cfg i s = 0.25%float -> pos_desired s_w = 2)) /\
  (forall k, - MAX_INSTRUMENT_QUANTITY <= k <= MAX_INSTRUMENT_QUANTITY ->
     py_round (float_of_Z k + 0.5)%float
     = inr (if Z.even k then k else k + 1)).
Proof.
  intros Hw Hm.
  pose proof Hw as Hw'.
  apply step_to_wait_returned in Hw'
    as (t0 & s2 & Ht0 & Hd & _ & Hb & _ & _).
  destruct (step_to_wait_issues i s t0 Ht0 Hd Hb) as (n & Hn & Hw').
  rewrite Hw' in Hw. injection Hw as <- _.
  destruct (step_to_wait_order i s t0 n) as (_ & Hyes & _).
  destruct (Hyes Hm) as (Hc & Hp). cbv zeta in Hc, Hp.
  rewrite Hp. split; [assumption|]. split; [assumption|].
  split.
  - intros Hmq. unfold clipped_action in Hn. rewrite Hmq in Hn.
    split; intros Ha; rewrite Ha in Hn; vm_compute in Hn; congruence.
  - apply halves_to_even.
Qed.

(** C8, as the code has it.  On a [step] of an active episode that is not
    its last, an action below -1 or above 1 is not rejected: the step
    reaches its wait, the target is computed from the bound that the
    action was clipped to (so it is [- max_quantity] or [max_quantity]),
    and the action attribute holds the raw value, also when the call
    returns. *)
Theorem out_of_range_action_is_clipped (i : StepIn) (s : Env) :
  active s ->
  terminal cfg s = false ->
  (in_action i <? action_low)%float = true \/
  (action_high <? in_action i)%float = true ->
  let bound := if (in_action i <? action_low)%float
               then action_low else action_high in
  let target := if (in_action i <? action_low)%float
                then - max_quantity cfg else max_quantity cfg in
  exists s_w,
    step_to_wait cfg i s = (s_w, Returned false) /\
    (forall e, snd (_step cfg i s) <> Raised e) /\
    clipped_action cfg i s = bound /\
    py_round (bound * float_of_Z (max_quantity cfg))%float = inr target /\
    action s_w = Some (in_action i) /\
    (may_order cfg i = true ->
       ib_calls s_w = ib_calls s ++ [CancelAll; OrderTarget target] /\
       pos_desired s_w = target) /\
    (forall s' r, _step cfg i s = (s', Returned r) ->
       action s' = Some (in_action i)).
Proof.
  intros (Hd & Ht & Hq) Hl Hout bound target.
  destruct (act_start_time s) as [t0|] eqn:Ht0; [clear Ht|congruence].
  assert (Heff : effective_action cfg i s = in_action i)
    by (unfold effective_action; rewrite Hl; reflexivity).
  destruct (unit_targets (max_quantity cfg) (proj1 cfg_ok))
    as (_ & Hhi & Hlo).
  assert (Hclip : clipped_action cfg i s = bound /\
                  py_round (bound * float_of_Z (max_quantity cfg))%float
                  = inr target).
  { unfold clipped_action, bound, target. rewrite Heff.
    destruct Hout as [Ho|Ho].
    - rewrite Ho. auto using clip_below.
    - rewrite (clip_above _ Ho).
      destruct (in_action i <? action_low)%float eqn:Hb; [|auto].
      apply clip_below in Hb. rewrite (clip_above _ Ho) in Hb.
      discriminate. }
  destruct Hclip as (Hc & Hr).
  assert (Hb : box_contains (clipped_action cfg i s) = true).
  { rewrite Hc. unfold bound.
    destruct (in_action i <? action_low)%float; reflexivity. }
  destruct (step_to_wait_issues i s t0 Ht0 Hd Hb) as (n & Hn & Hw).
  rewrite Hc, Hr in Hn. injection Hn as <-.
  rewrite Hl in Hw.
  eexists. split; [exact Hw|].
  destruct (step_to_wait_order i s t0 target) as (Ha & Hyes & _).
  cbv zeta in Ha, Hyes. rewrite Heff in Ha.
  assert (Hs : data_q (deliver_all cfg (in_wait i)
                 (accounted cfg i (deliver_all cfg (settle_events cfg i s)
                               (ordered cfg i t0 target s)))) <> None).
  { apply deliver_all_data_q_some.
    apply (step_to_wait_queue cfg i s _ _ Hw). assumption. }
  split; [|split; [assumption|split; [assumption|split;
            [assumption|split; [assumption|]]]]].
  - intros e. rewrite step_eq, Hw, step_from_wait_eq. cbv zeta.
    match type of Hs with data_q ?x <> None =>
      destruct (data_q x) as [[|o q]|]; cbn [snd]; congruence end.
  - intros s' r. rewrite step_eq, Hw, step_from_wait_eq. cbv zeta.
    match type of Hs with data_q ?x <> None =>
      destruct (data_q x) as [[|o q]|]; try discriminate end.
    intros H; injection H as <- _. env_norm. assumption.
Qed.

End Issuing.

(** ** Fills that arrive during the wait *)

Section Crediting.

Variable cfg : Config.

(** Callbacks and finish requests between two steps: the fills add to
    the accumulator, and the episode is neither ended nor restarted. *)
Lemma run_quiet cs : forall s s' os,
  forallb is_quiet cs = true ->
  run cfg cs s = Some (s', os) ->
  profit s' = fsum (profit s) (fills (callbacks_of cs)) /\
  done s' = done s /\
  act_start_time s' = act_start_time s /\
  reward s' = reward s /\
  (data_q s <> None -> data_q s' <> None).
Proof.
  induction cs as [|c cs IH]; intros s s' os Hq Hrun.
  - cbn in Hrun. injection Hrun as <- _. auto.
  - cbn [forallb] in Hq. apply andb_true_iff in Hq as [Hc Hq].
    cbn [run] in Hrun.
    destruct c as [r|i| |evs|e]; try discriminate; cbn [call] in Hrun;
      unfold_m;
      (destruct (run cfg cs _) as [[s2 os2]|] eqn:Hrun2; [|discriminate]);
      injection Hrun as <- _;
      destruct (IH _ _ _ Hq Hrun2) as (Hp & Hd & Ht & Hrw & Hdq);
      rewrite Hp, Hd, Ht, Hrw.
    + env_simpl. auto 6.
    + change (deliver cfg e s) with (deliver_all cfg [e] s) in *. env_norm.
      change (callbacks_of (Callback e :: cs)) with ([e] ++ callbacks_of cs).
      rewrite fills_app, fsum_app.
      repeat split; auto using deliver_all_data_q_some.
Qed.


End Crediting.



(** ** The observations handed to the caller *)

Section Observations.

Variable cfg : Config.

Lemma queue_ok_eq s s' : data_q s' = data_q s -> queue_ok s -> queue_ok s'.
Proof. unfold queue_ok. intros ->. trivial. Qed.

(** [Queue.get] hands over a proper observation and leaves a proper
    queue. *)
Lemma queue_ok_head s o q :
  queue_ok s -> data_q s = Some (o :: q) ->
  o <> None /\ Forall (fun o => o <> None) q.
Proof.
  unfold queue_ok. intros H Hq. rewrite Hq in H.
  inversion H; subst. auto.
Qed.

Lemma step_queue_ok i s s' out :
  queue_ok s -> _step cfg i s = (s', out) ->
  queue_ok s' /\ (forall r, out = Returned r -> r_observation r <> None).
Proof.
  intros Hok. rewrite step_eq.
  destruct (act_start_time s) as [t0|] eqn:Ht0.
  2:{ rewrite step_to_wait_never_reset by assumption.
      intros H; injection H as <- <-. split; [assumption|discriminate]. }
  destruct (done s) eqn:Hd.
  { rewrite (step_to_wait_done cfg i s t0) by assumption.
    intros H; injection H as <- <-. split; [|discriminate].
    apply (queue_ok_eq s); [reflexivity|assumption]. }
  rewrite (step_to_wait_active cfg i s t0) by assumption. cbv zeta.
  destruct (negb _).
  { intros H; injection H as <- <-. split; [|discriminate].
    apply (queue_ok_eq s); [reflexivity|assumption]. }
  destruct (issue_order _ _ _ _ _) as [s2 o2] eqn:Hio.
  apply issue_order_view in Hio. env_simpl.
  injection Hio as Hq _ _ _ _ _ _ _ _ _.
  assert (Hok2 : queue_ok s2) by (apply (queue_ok_eq s); assumption).
  destruct o2 as [[]|e|];
    [|intros H; injection H as <- <-; split; [assumption|discriminate]
     |intros H; injection H as <- <-; split; [assumption|discriminate]].
  rewrite step_from_wait_eq. cbv zeta.
  match goal with |- context [data_q ?x] =>
    assert (Hokw : queue_ok x) end.
  { apply deliver_all_queue_ok, accounted_queue_ok, deliver_all_queue_ok.
    assumption. }
  match type of Hokw with queue_ok ?x =>
    destruct (data_q x) as [[|o q]|] eqn:Hdq end;
    intros H; injection H as <- <-;
    try (split; [assumption|discriminate]).
  destruct (queue_ok_head _ _ _ Hokw Hdq) as (Ho & Hq').
  split.
  - unfold queue_ok. env_simpl. assumption.
  - intros r Hr. injection Hr as <-. assumption.
Qed.

Lemma reset_queue_ok r s s' out :
  _reset cfg r s = (s', out) ->
  queue_ok s' /\ (forall o, out = Returned o -> o <> None).
Proof.
  rewrite reset_eq. cbv zeta.
  match goal with |- context [data_q ?x] =>
    assert (Hokw : queue_ok x) end.
  { apply deliver_all_queue_ok. unfold queue_ok. env_simpl. constructor. }
  match type of Hokw with queue_ok ?x =>
    destruct (data_q x) as [[|o q]|] eqn:Hdq end;
    intros H; injection H as <- <-;
    try (split; [assumption|discriminate]).
  destruct (queue_ok_head _ _ _ Hokw Hdq) as (Ho & Hq').
  split.
  - unfold queue_ok. env_simpl. assumption.
  - intros o' Hr. injection Hr as <-. assumption.
Qed.

Lemma call_queue_ok c s s' out :
  queue_ok s -> call cfg c s = (s', out) ->
  queue_ok s' /\
  (forall os, out = Returned os -> Forall (fun o => o <> None) os).
Proof.
  intros Hok. destruct c as [r|i| |evs|e]; cbn [call].
  - unfold bind at 1. destruct (_reset cfg r s) as [s1 o1] eqn:Hr.
    apply reset_queue_ok in Hr as (Hq & Ho).
    destruct o1; intros H; injection H as <- <-;
      (split; [assumption|]); try discriminate.
    intros os Hos. injection Hos as <-. repeat constructor. auto.
  - unfold bind at 1. destruct (_step cfg i s) as [s1 o1] eqn:Hs.
    apply step_queue_ok in Hs as (Hq & Ho); [|assumption].
    destruct o1; intros H; injection H as <- <-;
      (split; [assumption|]); try discriminate.
    intros os Hos. injection Hos as <-. repeat constructor. auto.
  - unfold_m. intros H; injection H as <- <-. split.
    + apply (queue_ok_eq s); [reflexivity|assumption].
    + intros os Hos. injection Hos as <-. constructor.
  - unfold _close; unfold_m. intros H; injection H as <- <-. split.
    + apply (queue_ok_eq (deliver_all cfg evs
                            (ib_call Flatten (set_done true s))));
        [reflexivity|].
      apply deliver_all_queue_ok.
      apply (queue_ok_eq s); [reflexivity|assumption].
    + intros os Hos. injection Hos as <-. constructor.
  - unfold_m. intros H; injection H as <- <-. split.
    + apply (deliver_all_queue_ok cfg [e]). assumption.
    + intros os Hos. injection Hos as <-. constructor.
Qed.

Lemma run_queue_ok cs : forall s s' os,
  queue_ok s -> run cfg cs s = Some (s', os) ->
  queue_ok s' /\ Forall (fun o => o <> None) os.
Proof.
  induction cs as [|c cs IH]; intros s s' os Hok; cbn [run].
  - intros H; injection H as <- <-. auto.
  - destruct (call cfg c s) as [s1 o1] eqn:Hc.
    apply call_queue_ok in Hc as (Hq & Ho); [|assumption].
    destruct o1 as [os1|e|]; [|apply IH; assumption|discriminate].
    destruct (run cfg cs s1) as [[s2 os2]|] eqn:Hr; [|discriminate].
    intros H; injection H as <- <-.
    apply IH in Hr as (Hq2 & Ho2); [|assumption].
    split; [assumption|]. apply Forall_app. auto.
Qed.

(** C7.  The market-data callback puts the transformed observation at the
    end of the queue exactly when the transform returned something, the
    gateway is connected, the environment is not done and the queue
    exists; otherwise the queue is as it was.  So no callback ever
    enqueues Python's [None], and in every run from the constructor on,
    each [reset] or [step] that returns hands over a proper observation. *)
Theorem observation_enqueued_iff_ready :
  (forall bar position cost connected s,
      let obs := snd (cooked cfg bar position cost) in
      let s' := _on_mktdata cfg bar position cost connected s in
      (obs <> None /\ connected = true /\ done s = false /\
       data_q s <> None ->
       exists q, data_q s = Some q /\ data_q s' = Some (q ++ [obs])) /\
      (~ (obs <> None /\ connected = true /\ done s = false /\
          data_q s <> None) ->
       data_q s' = data_q s)) /\
  (forall evs s, queue_ok s -> queue_ok (deliver_all cfg evs s)) /\
  (forall i s s' r,
      queue_ok s -> _step cfg i s = (s', Returned r) ->
      r_observation r <> None) /\
  (forall r s s' o, _reset cfg r s = (s', Returned o) -> o <> None) /\
  (forall position cs s' os,
      run cfg cs (init position) = Some (s', os) ->
      queue_ok s' /\ Forall (fun o => o <> None) os).
Proof.
  split; [|split; [|split; [|split]]].
  - intros bar position cost connected s obs s'. subst obs s'.
    unfold _on_mktdata.
    destruct (cooked cfg bar position cost) as [gain obs]. cbn [snd].
    unfold enqueues. env_simpl. split.
    + intros (Ho & -> & -> & Hq).
      destruct obs as [o|]; [|congruence].
      destruct (data_q s) as [q|]; [|congruence].
      cbn [andb negb]. exists q. split; [reflexivity|].
      destruct (1 <? _); reflexivity.
    + intros Hn.
      destruct obs as [o|], connected, (done s), (data_q s) as [q|] eqn:Hq;
        cbn [andb negb]; env_simpl; try congruence.
      exfalso. apply Hn. repeat split; congruence.
  - apply deliver_all_queue_ok.
  - intros i s s' r Hok Hs.
    apply step_queue_ok in Hs as (_ & Ho); auto.
  - intros r s s' o Hr. apply reset_queue_ok in Hr as (_ & Ho). auto.
  - intros position cs s' os Hr.
    apply (run_queue_ok cs (init position)); [|assumption].
    unfold queue_ok. cbn. trivial.
Qed.

(** ** Reset *)


End Observations.

(** ** The theorems at concrete inputs *)

Lemma cfg1_ok : valid_config cfg1.
Proof. unfold valid_config, MAX_INSTRUMENT_QUANTITY. cbn. lia. Qed.

Lemma env1_active : active env1.
Proof. unfold active. cbn. repeat split; discriminate. Qed.

Lemma order_issued_iff_not_congested_witness :
  may_order cfg1 sin_congested = false /\
  forall e, snd (_step cfg1 sin_congested env1) <> Raised e.
Proof.
  destruct (order_issued_iff_not_congested cfg1 cfg1_ok sin_congested env1
              env1_active eq_refl)
    as (s_w & n & _ & Hgo & _ & _ & _ & Hex).
  split; [|exact Hgo].
  destruct (Hex eq_refl) as (_ & H12 & _). apply H12. reflexivity.
Defined.

Lemma desired_position_is_rounded_target_witness :
  pos_desired env1_waiting = 6.
Proof.
  destruct (desired_position_is_rounded_target cfg1 cfg1_ok
              (sin0 action_055 [ev_bar]) env1 env1_waiting false
              ltac:(vm_compute; reflexivity) eq_refl)
    as (_ & _ & Hex & _).
  destruct (Hex eq_refl) as (H55 & _). apply H55. reflexivity.
Defined.

Lemma out_of_range_action_is_clipped_witness :
  exists s_w,
    step_to_wait cfg1 (sin0 3 [ev_bar]) env1 = (s_w, Returned false) /\
    action s_w = Some 3%float /\
    pos_desired s_w = 10.
Proof.
  destruct (out_of_range_action_is_clipped cfg1 cfg1_ok (sin0 3 [ev_bar])
              env1 env1_active eq_refl (or_intror eq_refl))
    as (s_w & Hw & _ & _ & _ & Ha & Ho & _).
  exists s_w. split; [exact Hw|]. split; [exact Ha|].
  destruct (Ho eq_refl) as (_ & Hp). exact Hp.
Defined.

(** C8 as stated fails on the last step of an episode: the action 3 is
    out of range, yet the action attribute holds 0 and the target is 0,
    not the target 10 of the clipped action. *)
Lemma last_step_drops_raw_action :
  (action_high <? 3)%float = true /\
  terminal cfg0 env0_stepped = true /\
  py_round (np_clip 3 action_low action_high
            * float_of_Z (max_quantity cfg0))%float = inr 10 /\
  exists s' r,
    _step cfg0 (sin0 3 [ev_bar]) env0_stepped = (s', Returned r) /\
    action s' = Some 0%float /\
    action s' <> Some 3%float /\
    ib_calls s' = ib_calls env0_stepped ++ [CancelAll; OrderTarget 0].
Proof.
  split; [reflexivity|]. split; [reflexivity|].
  split; [vm_compute; reflexivity|].
  eexists. eexists. split; [vm_compute; reflexivity|].
  cbn [action ib_calls]. split; [reflexivity|]. split; [|reflexivity].
  intros H.
  apply (f_equal (fun o => match o with
                           | Some x => PrimFloat.eqb x 0
                           | None => false
                           end)) in H.
  vm_compute in H. discriminate.
Qed.


(** ** Every way a call can end *)

Section Outcomes.

Variable cfg : Config.

(** The ways [step] can end, with the state each leaves. *)
Lemma step_outcomes i s s' out :
  _step cfg i s = (s', out) ->
  (act_start_time s = None /\ s' = s /\ out = Raised TypeError) \/
  exists t0,
    act_start_time s = Some t0 /\
    ((done s = true /\ out = Raised ValueError /\
      s' = set_step_num (step_num s + 1)
             (set_act_time
                (deque_append (in_now i - t0)%float (act_time s)) s)) \/
     (done s = false /\ out = Raised AssertionError /\
      box_contains (clipped_action cfg i s) = false /\
      s' = entered cfg i t0 s) \/
     (done s = false /\ may_order cfg i = true /\
      (exists e, out = Raised e /\
                 py_round (clipped_action cfg i s
                           * float_of_Z (max_quantity cfg))%float = inl e) /\
      box_contains (clipped_action cfg i s) = true /\
      s' = ib_call CancelAll (entered cfg i t0 s)) \/
     (done s = false /\
      box_contains (clipped_action cfg i s) = true /\
      exists n,
        (may_order cfg i = true ->
         py_round (clipped_action cfg i s
                   * float_of_Z (max_quantity cfg))%float = inr n) /\
        let s1 := deliver_all cfg (in_wait i)
                    (accounted cfg i (deliver_all cfg (settle_events cfg i s)
                                  (ordered cfg i t0 n s))) in
        (data_q s1 = None /\ out = Raised AttributeError /\ s' = s1) \/
        (data_q s1 = Some [] /\ out = Blocked /\ s' = s1) \/
        (exists o q r,
            data_q s1 = Some (o :: q) /\ out = Returned r /\
            s' = stepped i (terminal cfg s) o q s1 /\
            r_observation r = o /\ r_reward r = reward s1 /\
            r_done r = terminal cfg s /\
            info_step (r_info r) = step_num s1 /\
            info_episode_profit (r_info r) = episode_profit s1 /\
            info_position_desired (r_info r) = pos_desired s1 /\
            info_position_actual (r_info r) = in_info_position i /\
            info_avg_cost (r_info r) = cost_or_0 (in_info_cost i) /\
            info_agent_time_last (r_info r)
            = List.last (act_time s1) nan))).
Proof.
  rewrite step_eq. intros H.
  destruct (act_start_time s) as [t0|] eqn:Ht0.
  2:{ rewrite step_to_wait_never_reset in H by assumption.
      injection H as <- <-. auto. }
  right. exists t0. split; [reflexivity|].
  destruct (done s) eqn:Hd.
  { rewrite (step_to_wait_done cfg i s t0) in H by assumption.
    injection H as <- <-. auto. }
  right. rewrite (step_to_wait_active cfg i s t0) in H by assumption.
  cbv zeta in H. fold (clipped_action cfg i s) in H.
  destruct (box_contains (clipped_action cfg i s)) eqn:Hb; cbn [negb] in H.
  2:{ injection H as <- <-. auto. }
  right. rewrite issue_order_eq in H. fold (may_order cfg i) in H.
  assert (Hgo : forall n,
    (may_order cfg i = true ->
     py_round (clipped_action cfg i s
               * float_of_Z (max_quantity cfg))%float = inr n) ->
    step_from_wait cfg i (terminal cfg s)
      (accounted cfg i (deliver_all cfg (settle_events cfg i s)
                    (ordered cfg i t0 n s))) = (s', out) ->
    false = false /\ true = true /\
    exists n,
      (may_order cfg i = true ->
       py_round (clipped_action cfg i s
                 * float_of_Z (max_quantity cfg))%float = inr n) /\
      let s1 := deliver_all cfg (in_wait i)
                  (accounted cfg i (deliver_all cfg (settle_events cfg i s)
                                (ordered cfg i t0 n s))) in
      (data_q s1 = None /\ out = Raised AttributeError /\ s' = s1) \/
      (data_q s1 = Some [] /\ out = Blocked /\ s' = s1) \/
      (exists o q r,
          data_q s1 = Some (o :: q) /\ out = Returned r /\
          s' = stepped i (terminal cfg s) o q s1 /\
          r_observation r = o /\ r_reward r = reward s1 /\
          r_done r = terminal cfg s /\
          info_step (r_info r) = step_num s1 /\
          info_episode_profit (r_info r) = episode_profit s1 /\
          info_position_desired (r_info r) = pos_desired s1 /\
          info_position_actual (r_info r) = in_info_position i /\
          info_avg_cost (r_info r) = cost_or_0 (in_info_cost i) /\
          info_agent_time_last (r_info r) = List.last (act_time s1) nan)).
  { intros n Hn Hs. rewrite step_from_wait_eq in Hs. cbv zeta in Hs.
    split; [reflexivity|]. split; [reflexivity|]. exists n.
    split; [assumption|]. cbv zeta.
    destruct (data_q (deliver_all cfg (in_wait i) _)) as [[|o q]|];
      injection Hs as <- <-; auto.
    right. right. eexists. eexists. eexists.
    split; [reflexivity|]. split; [reflexivity|].
    cbn [r_observation r_reward r_done r_info info_step info_episode_profit
         info_position_desired info_position_actual info_avg_cost
         info_agent_time_last]. auto 15. }
  assert (Ho : forall n,
            ordered cfg i t0 n s
            = if may_order cfg i
              then ib_call (OrderTarget n)
                     (set_pos_desired n
                        (ib_call CancelAll (entered cfg i t0 s)))
              else warn (Constipation (in_position i) (in_open_orders i))
                     (ib_call CancelAll (entered cfg i t0 s)))
    by reflexivity.
  destruct (may_order cfg i) eqn:Hm.
  - destruct (py_round _) as [e|n] eqn:Hr.
    + injection H as <- <-. left. eauto 10.
    + right. rewrite <- Ho in H. exact (Hgo n (fun _ => eq_refl) H).
  - right. rewrite <- (Ho 0) in H.
    apply (Hgo 0); [discriminate|assumption].
Qed.

(** The ways [reset] can end: it never raises. *)
Lemma reset_outcomes r s s' out :
  _reset cfg r s = (s', out) ->
  let s1 := deliver_all cfg (rin_wait r)
              (cleared (deliver_all cfg (rin_settle r)
                          (ib_call Flatten (set_done true s)))) in
  (data_q s1 = Some [] /\ out = Blocked /\ s' = s1) \/
  (exists o q, data_q s1 = Some (o :: q) /\ out = Returned o /\
               s' = restarted r o q s1).
Proof.
  rewrite reset_eq. cbv zeta.
  pose proof (deliver_all_data_q_some cfg (rin_wait r)
                (cleared (deliver_all cfg (rin_settle r)
                            (ib_call Flatten (set_done true s))))) as Hs.
  destruct (data_q (deliver_all cfg (rin_wait r) _)) as [[|o q]|];
    intros H; injection H as <- <-; eauto 10.
  exfalso. apply Hs; [env_simpl; discriminate|reflexivity].
Qed.

(** A property that every call keeps, unless it blocks, holds after every
    run. *)
Lemma run_invariant (P : Env -> Prop) :
  (forall c s s' out,
      P s -> call cfg c s = (s', out) -> out <> Blocked -> P s') ->
  forall cs s s' os, P s -> run cfg cs s = Some (s', os) -> P s'.
Proof.
  intros Hc. induction cs as [|c cs IH]; intros s s' os Hs; cbn [run].
  - intros H; injection H as <- _. assumption.
  - destruct (call cfg c s) as [s1 o1] eqn:Hcall.
    destruct o1 as [os1|e|]; [| |discriminate].
    + apply Hc in Hcall; [|assumption|discriminate].
      destruct (run cfg cs s1) as [[s2 os2]|] eqn:Hr; [|discriminate].
      intros H; injection H as <- _. eapply IH; eauto.
    + apply Hc in Hcall; [|assumption|discriminate].
      apply IH. assumption.
Qed.

(** The calls, by cases on the state they leave. *)
Lemma call_outcomes c s s' out :
  call cfg c s = (s', out) ->
  match c with
  | CallReset r => exists o, _reset cfg r s = (s', o)
  | CallStep i => exists o, _step cfg i s = (s', o)
  | CallFinish => s' = set_finish_on_next_step true s
  | CallClose evs =>
      s' = ib_call Disconnect
             (deliver_all cfg evs (ib_call Flatten (set_done true s)))
  | Callback e => s' = deliver_all cfg [e] s
  end.
Proof.
  destruct c as [r|i| |evs|e]; cbn [call].
  - unfold bind at 1. destruct (_reset cfg r s) as [s1 o1].
    destruct o1; intros H; injection H as <- _; eauto.
  - unfold bind at 1. destruct (_step cfg i s) as [s1 o1].
    destruct o1; intros H; injection H as <- _; eauto.
  - unfold_m. intros H; injection H as <- _. reflexivity.
  - unfold _close; unfold_m. intros H; injection H as <- _. reflexivity.
  - unfold_m. intros H; injection H as <- _. reflexivity.
Qed.

End Outcomes.

(** ** The queue, item by item *)

Section Backlog.

Variable cfg : Config.

Lemma arrivals_app evs1 evs2 :
  arrivals cfg (evs1 ++ evs2) = arrivals cfg evs1 ++ arrivals cfg evs2.
Proof. unfold arrivals. apply flat_map_app. Qed.

Lemma arrivals_ok evs : Forall (fun o => o <> None) (arrivals cfg evs).
Proof.
  induction evs as [|e evs IH]; [constructor|].
  change (e :: evs) with ([e] ++ evs). rewrite arrivals_app.
  apply Forall_app. split; [|assumption].
  unfold arrivals. cbn [flat_map]. rewrite app_nil_r.
  destruct e as [bar position cost connected| |]; try constructor.
  destruct (snd (cooked cfg bar position cost)); [|constructor].
  destruct connected; repeat constructor. discriminate.
Qed.

(** While the environment is not done and has a queue, the callbacks
    append their observations to it, in the order of arrival. *)
Lemma deliver_all_arrivals evs : forall s q,
  done s = false -> data_q s = Some q ->
  data_q (deliver_all cfg evs s) = Some (q ++ arrivals cfg evs).
Proof.
  induction evs as [|e evs IH]; intros s q Hd Hq.
  - cbn. rewrite app_nil_r. assumption.
  - change (deliver_all cfg (e :: evs) s)
      with (deliver_all cfg evs (deliver_all cfg [e] s)).
    change (e :: evs) with ([e] ++ evs). rewrite arrivals_app, app_assoc.
    apply IH; [env_norm; assumption|].
    destruct e as [bar position cost connected|p|msg];
      cbn [deliver_all fold_left deliver arrivals flat_map];
      try (env_simpl; rewrite !app_nil_r; assumption).
    unfold _on_mktdata.
    destruct (cooked cfg bar position cost) as [gain obs]. cbn [snd].
    unfold enqueues. env_simpl. rewrite Hd, Hq.
    destruct obs as [o|], connected; cbn [andb negb]; env_simpl;
      rewrite ?app_nil_r; try assumption.
    destruct (1 <? _); reflexivity.
Qed.

(** While the environment is done, no callback touches the queue. *)
Lemma deliver_all_gated evs : forall s,
  done s = true -> data_q (deliver_all cfg evs s) = data_q s.
Proof.
  induction evs as [|e evs IH]; intros s Hd; [reflexivity|].
  change (deliver_all cfg (e :: evs) s)
    with (deliver_all cfg evs (deliver_all cfg [e] s)).
  rewrite IH by (env_norm; assumption).
  destruct e as [bar position cost connected|p|msg];
    cbn [deliver_all fold_left deliver]; try reflexivity.
  unfold _on_mktdata.
  destruct (cooked cfg bar position cost) as [gain obs].
  unfold enqueues. env_simpl. rewrite Hd.
  destruct obs, connected; reflexivity.
Qed.

End Backlog.

(** A [step] on a done environment raises, whatever else holds. *)
Lemma step_when_done_raises cfg i s :
  done s = true -> exists s' e, _step cfg i s = (s', Raised e).
Proof.
  intros Hd. rewrite step_eq.
  destruct (act_start_time s) as [t0|] eqn:Ht0.
  - rewrite (step_to_wait_done cfg i s t0) by assumption. eauto.
  - rewrite step_to_wait_never_reset by assumption. eauto.
Qed.

(** ** Further properties of the environment *)

Section Latency.

Variable cfg : Config.

(** What the order handling of lines 220-229 leaves alone. *)
Lemma ordered_view i t0 n s :
  (data_q (ordered cfg i t0 n s), profit (ordered cfg i t0 n s),
   episode_profit (ordered cfg i t0 n s), reward (ordered cfg i t0 n s),
   done (ordered cfg i t0 n s), step_num (ordered cfg i t0 n s),
   _finish_on_next_step (ordered cfg i t0 n s),
   act_start_time (ordered cfg i t0 n s), act_time (ordered cfg i t0 n s),
   action (ordered cfg i t0 n s), observation (ordered cfg i t0 n s))
  = (data_q s, profit s, episode_profit s, reward s, done s, step_num s + 1,
     _finish_on_next_step s, act_start_time s,
     deque_append (in_now i - t0)%float (act_time s),
     Some (effective_action cfg i s), observation s).
Proof. unfold ordered. destruct (may_order cfg i); reflexivity. Qed.

Lemma deque_append_length x d :
  (List.length d <= 10)%nat -> (List.length (deque_append x d) <= 10)%nat.
Proof.
  intros Hd. unfold deque_append.
  assert (Hl : List.length (d ++ [x]) = S (List.length d))
    by (rewrite length_app; cbn; lia).
  destruct (10 <? Z.of_nat (List.length (d ++ [x]))) eqn:Hc.
  - destruct (d ++ [x]); cbn in *; lia.
  - apply Z.ltb_ge in Hc. lia.
Qed.

Lemma deque_append_last x d :
  List.last (deque_append x d) nan = x.
Proof.
  unfold deque_append.
  destruct (10 <? Z.of_nat (List.length (d ++ [x]))) eqn:Hc;
    [|apply last_last].
  apply Z.ltb_lt in Hc. rewrite length_app in Hc. cbn in Hc.
  destruct d as [|y d]; [cbn in Hc; lia|].
  cbn [app tl]. apply last_last.
Qed.

(** X1.  The history of decision latencies never holds more than ten
    samples, whatever calls and callbacks the environment has seen since
    its construction: [deque(maxlen=10)]. *)
Theorem latency_history_bounded position cs s' os :
  run cfg cs (init position) = Some (s', os) ->
  (List.length (act_time s') <= 10)%nat.
Proof.
  apply (run_invariant cfg (fun s => (List.length (act_time s) <= 10)%nat));
    [|cbn; lia].
  clear. intros c s s' out Hs Hc _.
  apply call_outcomes in Hc.
  destruct c as [r|i| |evs|e].
  - destruct Hc as (o & Hr). apply reset_outcomes in Hr. cbv zeta in Hr.
    destruct Hr as [(_ & _ & ->)|(ob & q & _ & _ & ->)];
      env_norm; assumption.
  - destruct Hc as (o & Hst). apply step_outcomes in Hst.
    destruct Hst as [(_ & -> & _)|(t0 & _ & Hst)]; [assumption|].
    destruct Hst as [(_ & _ & ->)|[(_ & _ & _ & ->)|[(_ & _ & _ & _ & ->)|
                     (_ & _ & n & _ & Hst)]]];
      try (env_simpl; apply deque_append_length; assumption).
    cbv zeta in Hst.
    pose proof (ordered_view i t0 n s) as Hv.
    injection Hv as _ _ _ _ _ _ _ _ Hat _ _.
    destruct Hst as [(_ & _ & ->)|[(_ & _ & ->)|
                     (ob & q & r & _ & _ & -> & _)]];
      env_norm; rewrite Hat; apply deque_append_length; assumption.
  - subst. assumption.
  - subst. env_norm. assumption.
  - subst. env_norm. assumption.
Qed.

(** X2.  When the market-data callback enqueues an observation onto a
    queue that already holds items, it logs that the agent is falling
    behind, with the new size of the queue; nothing is dropped and the
    items keep their order.  When it finds the queue empty, or does not
    enqueue, it logs nothing. *)
Theorem falling_behind_warning bar position cost connected s :
  let obs := snd (cooked cfg bar position cost) in
  let s' := _on_mktdata cfg bar position cost connected s in
  (enqueues obs connected s = true ->
   exists q,
     data_q s = Some q /\
     data_q s' = Some (q ++ [obs]) /\
     warnings s'
     = warnings s
       ++ match q with
          | [] => []
          | _ :: _ => [FallingBehind (Z.of_nat (List.length q) + 1)]
          end) /\
  (enqueues obs connected s = false ->
   data_q s' = data_q s /\ warnings s' = warnings s).
Proof.
  cbv zeta. unfold _on_mktdata.
  destruct (cooked cfg bar position cost) as [gain obs]. cbn [snd].
  assert (He : forall x y z,
            enqueues obs connected
              (set_unrealized_gain x (set_pos_actual y (set_raw_obs z s)))
            = enqueues obs connected s) by reflexivity.
  rewrite He. split; intros Hg; rewrite Hg.
  - unfold enqueues in Hg.
    destruct (data_q s) as [q|] eqn:Hq;
      [|rewrite andb_false_r in Hg; discriminate].
    exists q. env_simpl. rewrite Hq. split; [reflexivity|].
    assert (Hl : Z.of_nat (List.length (q ++ [obs]))
                 = Z.of_nat (List.length q) + 1)
      by (rewrite length_app; cbn; lia).
    destruct q as [|o q'].
    + cbn. rewrite app_nil_r. auto.
    + rewrite Hl. replace (1 <? Z.of_nat (List.length (o :: q')) + 1)
        with true by (symmetry; apply Z.ltb_lt; cbn [List.length]; lia).
      env_simpl. auto.
  - env_simpl. auto.
Qed.

(** X3.  [close] marks the environment done before anything else, then
    asks the gateway to flatten and to disconnect, in that order.  From
    then on the queue is frozen: neither the callbacks that ran during the
    settlement sleep nor any later ones enqueue anything, and every [step]
    raises. *)
Theorem close_stops_the_feed evs s :
  exists s',
    _close cfg evs s = (s', Returned tt) /\
    done s' = true /\
    ib_calls s' = ib_calls s ++ [Flatten; Disconnect] /\
    data_q s' = data_q s /\
    (forall later, data_q (deliver_all cfg later s') = data_q s) /\
    (forall i, exists s'' e, _step cfg i s' = (s'', Raised e)).
Proof.
  eexists. split; [reflexivity|].
  assert (Hd : done (ib_call Disconnect
                       (deliver_all cfg evs
                          (ib_call Flatten (set_done true s)))) = true)
    by (env_norm; reflexivity).
  assert (Hq : data_q (ib_call Disconnect
                         (deliver_all cfg evs
                            (ib_call Flatten (set_done true s))))
               = data_q s).
  { env_simpl. rewrite deliver_all_gated by reflexivity. reflexivity. }
  split; [exact Hd|]. split; [env_norm; rewrite <- app_assoc; reflexivity|].
  split; [exact Hq|]. split.
  - intros later. rewrite deliver_all_gated by exact Hd. exact Hq.
  - intros i. destruct (step_when_done_raises cfg i _ Hd) as (s'' & e & H).
    eauto.
Qed.

(** X4.  No callback of the gateway thread writes what the caller's side
    owns: the episode profit, the last reward and observation, the desired
    position, the done flag, the step counter, the finish request, the
    clock and latencies, the stored action and the log of requests are the
    same after any sequence of callbacks. *)
Theorem callbacks_keep_caller_state evs s :
  let s' := deliver_all cfg evs s in
  episode_profit s' = episode_profit s /\
  reward s' = reward s /\
  observation s' = observation s /\
  pos_desired s' = pos_desired s /\
  done s' = done s /\
  step_num s' = step_num s /\
  _finish_on_next_step s' = _finish_on_next_step s /\
  act_start_time s' = act_start_time s /\
  act_time s' = act_time s /\
  action s' = action s /\
  ib_calls s' = ib_calls s.
Proof. cbv zeta. env_norm. auto 12. Qed.

End Latency.

Section Handover.

Variable cfg : Config.

(** The queue when [step] begins to wait: what was there, and what the
    bars of the settlement sleep and those that arrived between lines 235
    and 237 added. *)
Lemma step_to_wait_backlog i s s_w d q :
  step_to_wait cfg i s = (s_w, Returned d) ->
  data_q s = Some q ->
  done s_w = false /\
  data_q s_w
  = Some (q ++ arrivals cfg (settle_events cfg i s
                             ++ in_booking i ++ in_zeroing i)).
Proof.
  intros Hw Hq.
  destruct (step_to_wait_queue cfg i s s_w d Hw) as (Hd & _).
  split; [assumption|].
  apply step_to_wait_returned in Hw as (t0 & s2 & _ & Hds & _ & _ & Hio & ->).
  apply issue_order_view in Hio. env_simpl.
  injection Hio as Hq2 _ _ _ Hd2 _ _ _ _ _.
  rewrite accounted_eq. env_simpl. rewrite <- deliver_all_app.
  apply deliver_all_arrivals; congruence.
Qed.

(** X5.  [step] hands over the oldest observation and leaves the others
    in their order: with the queue [q] at the call, the observations are
    those of [q], then those of the bars that arrive during the settlement
    sleep, between the accounting statements of lines 235-237, and during
    the wait.  [step] returns the first of them and leaves the rest; it
    blocks only when there is none. *)
Theorem step_takes_oldest i s s_w d q :
  step_to_wait cfg i s = (s_w, Returned d) ->
  data_q s = Some q ->
  match q ++ arrivals cfg (settle_events cfg i s ++ in_booking i
                           ++ in_zeroing i ++ in_wait i) with
  | [] => exists s', _step cfg i s = (s', Blocked)
  | o :: rest =>
      exists s' r,
        _step cfg i s = (s', Returned r) /\
        r_observation r = o /\ observation s' = o /\
        data_q s' = Some rest
  end.
Proof.
  intros Hw Hq.
  destruct (step_to_wait_backlog i s s_w d q Hw Hq) as (Hd & Hqw).
  pose proof (deliver_all_arrivals cfg (in_wait i) s_w _ Hd Hqw) as Hq1.
  rewrite <- app_assoc, <- arrivals_app, <- !app_assoc in Hq1.
  rewrite step_eq, Hw, step_from_wait_eq. cbv zeta. rewrite Hq1.
  destruct (q ++ arrivals cfg (settle_events cfg i s ++ in_booking i
                               ++ in_zeroing i ++ in_wait i))
    as [|o rest]; [eauto|].
  eexists. eexists. split; [reflexivity|]. env_simpl. auto.
Qed.

(** X6.  [reset] starts from an empty queue: what was queued before, and
    any bar that arrives while it flattens, is not handed over.  It
    returns the observation of the first ready bar that arrives during
    its wait, leaves the later ones queued in order, and blocks when
    there is none. *)
Theorem reset_returns_first_arrival r s :
  match arrivals cfg (rin_wait r) with
  | [] => exists s', _reset cfg r s = (s', Blocked)
  | o :: rest =>
      exists s',
        _reset cfg r s = (s', Returned o) /\
        observation s' = o /\ data_q s' = Some rest
  end.
Proof.
  rewrite reset_eq. cbv zeta.
  rewrite (deliver_all_arrivals cfg (rin_wait r) _ [])
    by (env_simpl; reflexivity).
  cbn [app].
  destruct (arrivals cfg (rin_wait r)) as [|o rest]; [eauto|].
  eexists. split; [reflexivity|]. env_simpl. auto.
Qed.

(** X7.  The [info] that [step] returns is taken after the step has been
    accounted: its step number is the count of this call, its episode
    profit and desired position are those of the state the call leaves,
    its last latency is the time the agent took before this call, and its
    actual position and cost are the gateway's answers, a missing cost
    being zero. *)
Theorem info_is_snapshot i s s' r :
  _step cfg i s = (s', Returned r) ->
  exists t0,
    act_start_time s = Some t0 /\
    info_step (r_info r) = step_num s + 1 /\
    step_num s' = step_num s + 1 /\
    info_episode_profit (r_info r) = episode_profit s' /\
    info_position_desired (r_info r) = pos_desired s' /\
    info_agent_time_last (r_info r) = (in_now i - t0)%float /\
    info_position_actual (r_info r) = in_info_position i /\
    info_avg_cost (r_info r) = cost_or_0 (in_info_cost i) /\
    act_start_time s' = Some (in_now_end i).
Proof.
  intros H. apply step_outcomes in H.
  destruct H as [(_ & _ & H)|(t0 & Ht0 & H)]; [discriminate|].
  exists t0. split; [assumption|].
  destruct H as [(_ & H & _)|[(_ & H & _)|[(_ & _ & (e & H & _) & _)|
                 (_ & _ & n & _ & H)]]]; try discriminate.
  cbv zeta in H.
  destruct H as [(_ & H & _)|[(_ & H & _)|
                 (o & q & r' & _ & Hr & -> & _ & _ & _ & H1 & H2 & H3
                  & H4 & H5 & H6)]]; try discriminate.
  injection Hr as <-.
  pose proof (ordered_view cfg i t0 n s) as Hv.
  injection Hv as _ _ _ _ _ Hn _ _ Hat _ _.
  rewrite H1, H2, H3, H4, H5, H6. env_norm. rewrite Hn, Hat.
  rewrite deque_append_last. auto 10.
Qed.

End Handover.

Section Episodes.

Variable cfg : Config.

Lemma fsum_one x y : fsum x [y] = (x + y)%float.
Proof. reflexivity. Qed.

(** One call of an episode, for the episode profit. *)
Lemma call_episode_profit c s s' out :
  is_reset c = false -> data_q s <> None ->
  call cfg c s = (s', out) -> out <> Blocked ->
  episode_profit s' = fsum (episode_profit s) (booking_of cfg c s) /\
  data_q s' <> None.
Proof.
  intros Hr Hq Hc Hb.
  pose proof Hc as Hc'. apply call_outcomes in Hc'.
  destruct c as [r|i| |evs|e]; try discriminate; cbn [booking_of].
  - destruct Hc' as (o & Hst). rewrite Hst.
    assert (Hout : match o with Blocked => False | _ => True end).
    { cbn [call] in Hc. unfold bind at 1 in Hc. rewrite Hst in Hc.
      destruct o; [trivial|trivial|]. injection Hc as <-. congruence. }
    clear Hc.
    apply step_outcomes in Hst.
    destruct Hst as [(_ & -> & ->)|(t0 & _ & Hst)]; [auto|].
    destruct Hst as [(_ & -> & ->)|[(_ & -> & _ & ->)|
                     [(_ & _ & (e & -> & _) & _ & ->)|
                      (_ & _ & n & _ & Hst)]]];
      try (env_simpl; auto; fail).
    cbv zeta in Hst.
    pose proof (ordered_view cfg i t0 n s) as Hv.
    injection Hv as Hdq Hp Hep _ _ _ _ _ _ _ _.
    assert (Hs1 : data_q (deliver_all cfg (in_wait i)
                    (accounted cfg i (deliver_all cfg (settle_events cfg i s)
                                  (ordered cfg i t0 n s)))) <> None).
    { queue_kept. congruence. }
    destruct Hst as [(Hn & _)|[(_ & -> & _)|
                     (ob & q & r & Hq1 & -> & -> & _ & Hrw & _)]];
      [congruence|contradiction|].
    rewrite Hrw. clear Hq1 Hs1 Hrw. env_norm. rewrite Hp, Hep.
    rewrite fsum_one. split; [reflexivity|discriminate].
  - subst. env_simpl. auto.
  - subst. env_norm. split; [reflexivity|].
    apply deliver_all_data_q_some. assumption.
  - subst. env_norm. split; [reflexivity|].
    apply deliver_all_data_q_some. assumption.
Qed.

(** A step that is not preempted between lines 235 and 236 books its
    reward. *)
Lemma booking_of_unpreempted c s :
  unpreempted c -> booking_of cfg c s = reward_of cfg c s.
Proof.
  destruct c as [r|i| |evs|e]; try reflexivity.
  cbn [unpreempted booking_of reward_of]. intros ->.
  destruct (_step cfg i s) as [s1 [r| |]]; reflexivity.
Qed.

Lemma bookings_unpreempted cs : forall s,
  Forall unpreempted cs -> bookings cfg cs s = rewards cfg cs s.
Proof.
  induction cs as [|c cs IH]; intros s H; [reflexivity|].
  inversion H; subst. cbn [bookings rewards].
  rewrite booking_of_unpreempted, IH by assumption. reflexivity.
Qed.


(** X9.  Once an episode has ended the environment stays done until
    [reset]: whatever steps, finish requests, closes and callbacks follow,
    it is still done, no observation has been handed out, and the queue is
    as it was. *)
Theorem done_until_reset cs : forall s s' os,
  done s = true ->
  existsb is_reset cs = false ->
  run cfg cs s = Some (s', os) ->
  done s' = true /\ os = [] /\ data_q s' = data_q s.
Proof.
  induction cs as [|c cs IH]; intros s s' os Hd Hr Hrun.
  - cbn in Hrun. injection Hrun as <- <-. auto.
  - cbn [existsb] in Hr. apply orb_false_iff in Hr as [Hc Hr].
    cbn [run] in Hrun.
    assert (Hone : forall s1 o1, call cfg c s = (s1, o1) ->
              done s1 = true /\ data_q s1 = data_q s /\
              (forall os1, o1 = Returned os1 -> os1 = [])).
    { intros s1 o1 Hcall. pose proof Hcall as Hcall'.
      apply call_outcomes in Hcall'.
      destruct c as [r|i| |evs|e]; try discriminate.
      - destruct Hcall' as (o & Hst).
        cbn [call] in Hcall. unfold bind at 1 in Hcall. rewrite Hst in Hcall.
        apply step_outcomes in Hst.
        destruct Hst as [(_ & -> & ->)|(t0 & _ & Hst)].
        { injection Hcall as <-. repeat split; auto; discriminate. }
        destruct Hst as [(_ & -> & ->)|[(Hf & _)|[(Hf & _)|(Hf & _)]]];
          try congruence.
        injection Hcall as <-. env_simpl.
        repeat split; auto; discriminate.
      - cbn [call] in Hcall. unfold_m. injection Hcall as _ <-. subst.
        env_simpl. repeat split; auto. intros os1 H; injection H as <-.
        reflexivity.
      - cbn [call] in Hcall. unfold _close in Hcall. unfold_m.
        injection Hcall as _ <-. subst. env_norm.
        rewrite deliver_all_gated by reflexivity.
        repeat split; auto. intros os1 H; injection H as <-. reflexivity.
      - cbn [call] in Hcall. unfold_m. injection Hcall as _ <-. subst.
        env_norm. rewrite deliver_all_gated by assumption.
        repeat split; auto. intros os1 H; injection H as <-. reflexivity. }
    destruct (call cfg c s) as [s1 o1] eqn:Hcall.
    destruct (Hone s1 o1 eq_refl) as (Hd1 & Hq1 & Hos).
    destruct o1 as [os1|e|]; [| |discriminate].
    + destruct (run cfg cs s1) as [[s2 os2]|] eqn:Hrun2; [|discriminate].
      injection Hrun as <- <-.
      destruct (IH _ _ _ Hd1 Hr Hrun2) as (H1 & H2 & H3).
      rewrite (Hos os1 eq_refl), H2, H3, Hq1. auto.
    + destruct (IH _ _ _ Hd1 Hr Hrun) as (H1 & H2 & H3).
      rewrite H3, Hq1. auto.
Qed.

End Episodes.

Section Requests.

Variable cfg : Config.

Lemma exists_last_or_nil {A} (l : list A) :
  l = [] \/ exists l' x, l = l' ++ [x].
Proof.
  destruct l as [|a l] using rev_ind; [auto|]. right. eauto.
Qed.

Lemma cancel_before_order_snoc l c :
  cancel_before_order l ->
  match c with
  | OrderTarget _ => exists l0, l = l0 ++ [CancelAll]
  | _ => True
  end ->
  cancel_before_order (l ++ [c]).
Proof.
  intros Hl Hc l1 n l2.
  destruct (exists_last_or_nil l2) as [->|(l2' & x & ->)]; intros E.
  - apply app_inj_tail in E as [El Ec]. subst. exact Hc.
  - rewrite app_comm_cons, app_assoc in E.
    apply app_inj_tail in E as [E _]. eapply Hl. exact E.
Qed.

(** The requests that one [step] adds to the log. *)
Lemma step_requests i s s' out :
  _step cfg i s = (s', out) ->
  ib_calls s' = ib_calls s \/
  ib_calls s' = ib_calls s ++ [CancelAll] \/
  exists n, ib_calls s' = (ib_calls s ++ [CancelAll]) ++ [OrderTarget n].
Proof.
  intros H. apply step_outcomes in H.
  destruct H as [(_ & -> & _)|(t0 & _ & H)]; [auto|].
  destruct H as [(_ & _ & ->)|[(_ & _ & _ & ->)|[(_ & _ & _ & _ & ->)|
                 (_ & _ & n & _ & H)]]]; env_simpl; auto.
  cbv zeta in H.
  assert (Hv : ib_calls (ordered cfg i t0 n s)
               = if may_order cfg i
                 then (ib_calls s ++ [CancelAll]) ++ [OrderTarget n]
                 else ib_calls s ++ [CancelAll])
    by (unfold ordered; destruct (may_order cfg i); reflexivity).
  destruct H as [(_ & _ & ->)|[(_ & _ & ->)|(o & q & r & _ & _ & -> & _)]];
    env_norm; rewrite Hv; destruct (may_order cfg i); eauto.
Qed.

(** X10.  The environment never places a target order without first
    cancelling the outstanding ones: in the log of requests made since
    construction, every target order comes directly after a
    [cancel_all]. *)
Theorem orders_follow_cancel position cs s' os :
  run cfg cs (init position) = Some (s', os) ->
  cancel_before_order (ib_calls s').
Proof.
  apply (run_invariant cfg (fun s => cancel_before_order (ib_calls s))).
  2:{ intros l1 n l2 E. destruct l1; discriminate. }
  clear. intros c s s' out Hs Hc _.
  apply call_outcomes in Hc.
  destruct c as [r|i| |evs|e].
  - destruct Hc as (o & Hr). apply reset_outcomes in Hr. cbv zeta in Hr.
    destruct Hr as [(_ & _ & ->)|(ob & q & _ & _ & ->)]; env_norm;
      apply cancel_before_order_snoc; trivial.
  - destruct Hc as (o & Hst). apply step_requests in Hst.
    destruct Hst as [->|[->|(n & ->)]]; [assumption| |].
    + apply cancel_before_order_snoc; trivial.
    + apply cancel_before_order_snoc; [|eauto].
      apply cancel_before_order_snoc; trivial.
  - subst. assumption.
  - subst. env_norm.
    apply cancel_before_order_snoc; [|trivial].
    apply cancel_before_order_snoc; trivial.
  - subst. env_norm. assumption.
Qed.

Lemma SFcompare_refl x : x <> S754_nan -> SFcompare x x = Some Eq.
Proof.
  destruct x as [s|s| |s m e]; intros Hx; try congruence; cbn [SFcompare].
  - reflexivity.
  - destruct s; reflexivity.
  - rewrite Z.compare_refl.
    assert (Hm : Pos.compare_cont Eq m m = Eq) by apply Pos.compare_refl.
    change (PosDef.Pos.compare_cont Eq m m) with (Pos.compare_cont Eq m m).
    rewrite Hm. destruct s; reflexivity.
Qed.

Lemma is_nan_true x : is_nan x = true -> Prim2SF x = S754_nan.
Proof.
  unfold is_nan. rewrite eqb_spec. unfold SFeqb. intros H.
  destruct (Prim2SF x) as [s|s| |s m e] eqn:E; [| |reflexivity|];
    rewrite SFcompare_refl in H by discriminate; discriminate.
Qed.

(** NaN is not in the action box, clipped or not. *)
Lemma clip_nan a :
  is_nan a = true ->
  box_contains (np_clip a action_low action_high) = false.
Proof.
  intros Hn. apply is_nan_true in Hn.
  assert (Hc : np_clip a action_low action_high = a).
  { unfold np_clip. rewrite !ltb_spec, Hn.
    change (Prim2SF action_high)
      with (S754_finite false 4503599627370496 (-52)).
    reflexivity. }
  rewrite Hc. unfold box_contains. rewrite !leb_spec, Hn.
  change (Prim2SF action_low)
    with (S754_finite true 4503599627370496 (-52)).
  reflexivity.
Qed.

(** X11.  A NaN action on a step that is not the last of its episode fails
    the assertion of line 216: the call raises [AssertionError] after it
    has been counted and the raw action stored, and before anything is
    asked of the gateway; accounting, queue and done flag are untouched,
    so the episode is still active. *)
Theorem nan_action_is_rejected i s :
  active s ->
  terminal cfg s = false ->
  is_nan (in_action i) = true ->
  exists s',
    _step cfg i s = (s', Raised AssertionError) /\
    ib_calls s' = ib_calls s /\
    step_num s' = step_num s + 1 /\
    action s' = Some (in_action i) /\
    profit s' = profit s /\
    episode_profit s' = episode_profit s /\
    pos_desired s' = pos_desired s /\
    data_q s' = data_q s /\
    active s'.
Proof.
  intros (Hd & Ht & Hq) Hl Hn.
  destruct (act_start_time s) as [t0|] eqn:Ht0; [clear Ht|congruence].
  exists (entered cfg i t0 s).
  rewrite step_eq, (step_to_wait_active cfg i s t0) by assumption.
  cbv zeta.
  assert (He : effective_action cfg i s = in_action i)
    by (unfold effective_action; rewrite Hl; reflexivity).
  rewrite He, (clip_nan _ Hn). cbn [negb].
  unfold active. env_simpl. rewrite He, Ht0, Hd.
  repeat split; auto; discriminate.
Qed.

End Requests.

Section StepLimit.

Variable cfg : Config.
Hypothesis cfg_ok : valid_config cfg.

(** The last step passes the assertion of line 216. *)
Lemma terminal_passes_check i s :
  terminal cfg s = true -> box_contains (clipped_action cfg i s) = true.
Proof.
  intros Hl. unfold clipped_action, effective_action. rewrite Hl.
  reflexivity.
Qed.


End StepLimit.

(** ** The target never exceeds the size *)

Lemma exact_sizes_checked :
  upto (Z.to_nat MAX_INSTRUMENT_QUANTITY) 1 exact_size = true.
Proof. vm_compute. reflexivity. Qed.

Lemma size_is_exact q :
  1 <= q <= MAX_INSTRUMENT_QUANTITY ->
  exists m e, Prim2SF (float_of_Z q) = S754_finite false m e /\
              Zpos m < 2 ^ 53 /\ -52 <= e <= -38 /\
              Zpos m = q * 2 ^ (- e).
Proof.
  intros Hq. pose proof (upto_spec _ _ _ q exact_sizes_checked) as H.
  assert (Hr : 1 <= q < 1 + Z.of_nat (Z.to_nat MAX_INSTRUMENT_QUANTITY)).
  { rewrite Z2Nat.id; unfold MAX_INSTRUMENT_QUANTITY in *; lia. }
  apply H in Hr. unfold exact_size in Hr.
  destruct (Prim2SF (float_of_Z q)) as [| | |[] m e]; try discriminate.
  apply andb_true_iff in Hr as [Hr H4].
  apply andb_true_iff in Hr as [Hr H3].
  apply andb_true_iff in Hr as [H1 H2].
  apply Z.ltb_lt in H1. apply Z.leb_le in H2, H3. apply Z.eqb_eq in H4.
  exists m, e. auto.
Qed.

(** [iter_pos f p] applies [f] exactly [p] times. *)
Lemma iter_pos_count {A} (f : A -> A) (P : nat -> A -> Prop) :
  (forall j x, P j x -> P (S j) (f x)) ->
  forall p j x, P j x -> P (j + Pos.to_nat p)%nat (iter_pos f p x).
Proof.
  intros Hf. induction p as [p IH|p IH|]; intros j x Hx; cbn [iter_pos].
  - replace (j + Pos.to_nat p~1)%nat
      with (S j + Pos.to_nat p + Pos.to_nat p)%nat by lia.
    auto.
  - replace (j + Pos.to_nat p~0)%nat
      with (j + Pos.to_nat p + Pos.to_nat p)%nat by lia.
    auto.
  - replace (j + Pos.to_nat 1)%nat with (S j) by lia. auto.
Qed.

Lemma shr_1_shifted m0 j mrs :
  0 <= m0 -> shifted m0 j mrs -> shifted m0 (S j) (shr_1 mrs).
Proof.
  intros Hm0 (Hm & Hex).
  assert (Hpow : 2 ^ Z.of_nat (S j) = 2 ^ Z.of_nat j * 2)
    by (rewrite Nat2Z.inj_succ, Z.pow_succ_r by lia; lia).
  assert (Hpos : 0 < 2 ^ Z.of_nat j) by (apply Z.pow_pos_nonneg; lia).
  assert (Hge : 0 <= shr_m mrs) by (rewrite Hm; apply Z.div_pos; lia).
  assert (Hdiv : m0 / 2 ^ Z.of_nat (S j) = shr_m mrs / 2).
  { rewrite Hpow, Hm. rewrite Z.div_div by lia. reflexivity. }
  assert (Hhalf : shr_m (shr_1 mrs) = shr_m mrs / 2 /\
                  shr_r (shr_1 mrs) = Z.odd (shr_m mrs) /\
                  shr_s (shr_1 mrs) = shr_r mrs || shr_s mrs).
  { destruct mrs as [m r s]. cbn [shr_m shr_r shr_s] in *.
    destruct m as [|[p|p|]|p]; cbn [shr_1 shr_m shr_r shr_s];
      try lia; repeat split; try reflexivity.
    - rewrite Pos2Z.inj_xI. apply Z.div_unique with 1; lia.
    - rewrite Pos2Z.inj_xO. apply Z.div_unique with 0; lia. }
  destruct Hhalf as (H1 & H2 & H3).
  split; [congruence|].
  intros Hz. rewrite H2, H3.
  assert (Hz0 : m0 mod 2 ^ Z.of_nat j = 0).
  { rewrite Hpow in Hz.
    rewrite Z.rem_mul_r in Hz by lia.
    pose proof (Z.mod_pos_bound m0 (2 ^ Z.of_nat j) Hpos).
    pose proof (Z.mod_pos_bound (m0 / 2 ^ Z.of_nat j) 2 ltac:(lia)).
    nia. }
  destruct (Hex Hz0) as (-> & ->).
  split; [|reflexivity].
  rewrite Hpow, Z.rem_mul_r, Hz0 in Hz by lia.
  rewrite <- Hm in Hz.
  rewrite <- Z.negb_even. apply negb_false_iff.
  rewrite Zmod_even in Hz. destruct (Z.even (shr_m mrs)); [reflexivity|lia].
Qed.

Lemma shr_shifted m e n mrs' e' :
  0 <= m ->
  shr (shr_record_of_loc m loc_Exact) e n = (mrs', e') ->
  shr_m mrs' = m / 2 ^ Z.max 0 n /\
  (m mod 2 ^ Z.max 0 n = 0 -> loc_of_shr_record mrs' = loc_Exact) /\
  e' = e + Z.max 0 n.
Proof.
  intros Hm H.
  assert (H0 : shifted m 0 (shr_record_of_loc m loc_Exact)).
  { split; cbn [shr_record_of_loc shr_m shr_r shr_s Z.of_nat].
    - rewrite Z.pow_0_r, Z.div_1_r. reflexivity.
    - auto. }
  assert (Hs : shifted m (Z.to_nat (Z.max 0 n)) mrs' /\ e' = e + Z.max 0 n).
  { unfold shr in H. destruct n as [|p|p]; injection H as <- <-;
      try (split; [exact H0|lia]).
    split; [|lia].
    replace (Z.to_nat (Z.max 0 (Z.pos p))) with (0 + Pos.to_nat p)%nat by lia.
    apply (iter_pos_count shr_1 (shifted m)); [|exact H0].
    intros j x. apply shr_1_shifted. exact Hm. }
  destruct Hs as ((H1 & H2) & H3).
  rewrite Z2Nat.id in H1, H2 by lia.
  split; [exact H1|]. split; [|exact H3].
  intros Hz. destruct (H2 Hz) as (Hr & Hst).
  destruct mrs' as [m' r s]. cbn [shr_r shr_s] in Hr, Hst. subst.
  reflexivity.
Qed.

Lemma round_half_even_le n d q :
  0 < d -> 0 <= n <= q * d -> round_half_even n d <= q.
Proof.
  intros Hd Hn. unfold round_half_even.
  pose proof (Z.div_mod n d ltac:(lia)) as Hdm.
  pose proof (Z.mod_pos_bound n d Hd) as Hb.
  assert (Hq : n / d <= q) by nia.
  assert (Hlt : n / d < q \/ n mod d = 0) by nia.
  destruct (Z.compare_spec (2 * (n mod d)) d); try destruct (Z.even _); lia.
Qed.

(** Rounding to binary64 does not carry a product past a bound that is a
    multiple of every unit the rounding can use. *)
Lemma binary_round_aux_le sx m e q :
  0 <= m < 2 ^ 106 -> e <= -90 -> 0 <= q -> m <= q * 2 ^ (- e) ->
  match binary_round_aux prec emax sx m e loc_Exact with
  | S754_finite _ m'' e'' =>
      e <= e'' /\ Zpos m'' * 2 ^ (e'' - e) <= q * 2 ^ (- e)
  | _ => True
  end.
Proof.
  intros Hm He Hq HM. unfold binary_round_aux.
  destruct (shr_fexp prec emax m e loc_Exact) as [mrs' e'] eqn:H1.
  unfold shr_fexp in H1.
  apply shr_shifted in H1; [|lia].
  destruct H1 as (Hm' & Hx' & He').
  pose proof (Zdigits2_le m 106 ltac:(lia) Hm) as Hd.
  unfold fexp, emin in Hm', Hx', He'.
  change prec with 53 in *. change emax with 1024 in *.
  set (k1 := Z.max 0 (Z.max (Zdigits2 m + e - 53) (3 - 1024 - 53) - e)) in *.
  assert (Hk1 : 0 <= k1 <= - e) by lia.
  assert (Hp1 : 0 < 2 ^ k1) by (apply Z.pow_pos_nonneg; lia).
  assert (Hsplit : 2 ^ (- e) = 2 ^ (- e - k1) * 2 ^ k1).
  { rewrite <- Z.pow_add_r by lia. f_equal. lia. }
  assert (Hp2 : 0 < 2 ^ (- e - k1)) by (apply Z.pow_pos_nonneg; lia).
  set (mr := round_nearest_even (shr_m mrs') (loc_of_shr_record mrs')) in *.
  assert (Hmr : 0 <= mr /\ mr * 2 ^ k1 <= q * 2 ^ (- e)).
  { pose proof (Z.div_mod m (2 ^ k1) ltac:(lia)) as Hdm.
    pose proof (Z.mod_pos_bound m (2 ^ k1) Hp1) as Hb.
    assert (H0 : 0 <= shr_m mrs') by (rewrite Hm'; apply Z.div_pos; lia).
    pose proof (round_nearest_even_bounds (shr_m mrs')
                  (loc_of_shr_record mrs') H0) as Hr.
    fold mr in Hr. split; [lia|].
    rewrite Hsplit in *.
    destruct (Z.eq_dec (m mod 2 ^ k1) 0) as [Hz|Hz].
    - unfold mr. rewrite (Hx' Hz). cbn [round_nearest_even].
      rewrite Hm'. nia.
    - assert (m / 2 ^ k1 < q * 2 ^ (- e - k1)) by nia.
      rewrite Hm' in Hr. nia. }
  destruct Hmr as (Hmr0 & Hmr).
  destruct (shr_fexp 53 1024 mr e' loc_Exact) as [mrs'' e''] eqn:H2.
  unfold shr_fexp in H2.
  apply shr_shifted in H2; [|lia].
  destruct H2 as (Hm'' & _ & He'').
  set (k2 := Z.max 0 (fexp 53 1024 (Zdigits2 mr + e') - e')) in *.
  assert (Hk2 : 0 <= k2) by lia.
  assert (Hp3 : 0 < 2 ^ k2) by (apply Z.pow_pos_nonneg; lia).
  destruct (shr_m mrs'') as [|p|p] eqn:Hp; [trivial| |trivial].
  destruct (e'' <=? 1024 - 53); [|trivial].
  split; [lia|].
  replace (e'' - e) with (k2 + k1) by lia.
  rewrite Z.pow_add_r by lia.
  pose proof (Z.div_mod mr (2 ^ k2) ltac:(lia)) as Hdm.
  pose proof (Z.mod_pos_bound mr (2 ^ k2) Hp3) as Hb.
  assert (Z.pos p * 2 ^ k2 <= mr) by lia.
  nia.
Qed.

(** Comparing two finite floats of the same sign. *)
Lemma SFleb_positive m1 e1 m2 e2 :
  SFleb (S754_finite false m1 e1) (S754_finite false m2 e2) = true ->
  e1 < e2 \/ (e1 = e2 /\ Zpos m1 <= Zpos m2).
Proof.
  unfold SFleb. cbn [SFcompare].
  destruct (Z.compare_spec e1 e2) as [E|E|E]; [|lia|discriminate].
  change (PosDef.Pos.compare_cont Eq m1 m2) with (m1 ?= m2)%positive.
  destruct (Pos.compare_spec m1 m2); try discriminate; lia.
Qed.

Lemma SFleb_negative m1 e1 m2 e2 :
  SFleb (S754_finite true m1 e1) (S754_finite true m2 e2) = true ->
  e2 < e1 \/ (e1 = e2 /\ Zpos m2 <= Zpos m1).
Proof.
  unfold SFleb. cbn [SFcompare].
  destruct (Z.compare_spec e1 e2) as [E|E|E]; [|discriminate|lia].
  change (PosDef.Pos.compare_cont Eq m1 m2) with (m1 ?= m2)%positive.
  destruct (Pos.compare_spec m1 m2); cbn [CompOpp]; try discriminate; lia.
Qed.

(** A float in the action box has magnitude at most one. *)
Lemma box_contains_unit x :
  box_contains x = true ->
  match Prim2SF x with
  | S754_zero _ => True
  | S754_finite _ m e => Zpos m < 2 ^ 53 /\ e <= -52 /\ Zpos m <= 2 ^ (- e)
  | _ => False
  end.
Proof.
  intros Hx. pose proof (box_contains_finite x Hx) as Hf.
  unfold box_contains in Hx. rewrite !leb_spec in Hx.
  apply andb_true_iff in Hx as [Hlo Hhi].
  change (Prim2SF action_high)
    with (S754_finite false 4503599627370496 (-52)) in Hhi.
  change (Prim2SF action_low)
    with (S754_finite true 4503599627370496 (-52)) in Hlo.
  destruct (Prim2SF x) as [s|s| |s m e]; trivial.
  destruct Hf as (Hm & He). split; [exact Hm|]. split; [exact He|].
  assert (Hc : e < -52 \/ (e = -52 /\ Zpos m <= Zpos 4503599627370496)).
  { destruct s.
    - apply SFleb_negative in Hlo. clear Hhi. lia.
    - apply SFleb_positive in Hhi. clear Hlo. lia. }
  destruct Hc as [Hc|(-> & Hc)].
  - apply Z.lt_le_incl, Z.lt_le_trans with (1 := Hm).
    apply Z.pow_le_mono_r; lia.
  - exact Hc.
Qed.

(** Line 225 never asks for more than the size: the target of a clipped
    action is at most [q] in magnitude. *)
Lemma target_bounded q x n :
  1 <= q <= MAX_INSTRUMENT_QUANTITY ->
  box_contains x = true ->
  py_round (x * float_of_Z q)%float = inr n ->
  Z.abs n <= q.
Proof.
  intros Hq Hx.
  destruct (size_is_exact q Hq) as (my & ey & Hy & Hmy & Hey & Hqy).
  apply box_contains_unit in Hx.
  unfold py_round. rewrite mul_spec, Hy. unfold SF64mul.
  destruct (Prim2SF x) as [sx| | |sx mx ex]; try contradiction;
    cbn [SFmul].
  - intros H. injection H as <-. lia.
  - destruct Hx as (Hmx & Hex & Hux).
    assert (Hpy : 0 < 2 ^ (- ey)) by (apply Z.pow_pos_nonneg; lia).
    assert (Hpx : 0 < 2 ^ (- ex)) by (apply Z.pow_pos_nonneg; lia).
    assert (Hpe : 2 ^ (- (ex + ey)) = 2 ^ (- ex) * 2 ^ (- ey)).
    { rewrite <- Z.pow_add_r by lia. f_equal; lia. }
    pose proof (binary_round_aux_le (xorb sx false)
                  (Zpos (mx * my)) (ex + ey) q) as H.
    assert (H106 : Zpos (mx * my) < 2 ^ 106).
    { rewrite Pos2Z.inj_mul. replace 106 with (53 + 53) by lia.
      rewrite Z.pow_add_r by lia. nia. }
    specialize (H ltac:(lia) ltac:(lia) ltac:(lia)).
    assert (HM : Zpos (mx * my) <= q * 2 ^ (- (ex + ey))).
    { rewrite Pos2Z.inj_mul, Hpe, Hqy. nia. }
    specialize (H HM).
    destruct (binary_round_aux _ _ _ _ _ _) as [s|s| |s m e];
      intros Hn; try discriminate.
    + injection Hn as <-. lia.
    + destruct H as (Hle & Hb).
      set (e0 := ex + ey) in *.
      set (mag := match e with Zneg p => _ | _ => _ end) in Hn.
      assert (Hmag : 0 <= mag <= q).
      { unfold mag. clear mag Hn. destruct e as [|p|p].
        - rewrite Z.sub_0_l in Hb.
          assert (0 < 2 ^ (- e0)) by (apply Z.pow_pos_nonneg; lia).
          split; [lia|nia].
        - assert (Hs : 2 ^ (Zpos p - e0) = 2 ^ Zpos p * 2 ^ (- e0)).
          { rewrite <- Z.pow_add_r by lia. f_equal; lia. }
          assert (0 < 2 ^ (- e0)) by (apply Z.pow_pos_nonneg; lia).
          assert (0 < 2 ^ Zpos p) by (apply Z.pow_pos_nonneg; lia).
          rewrite Hs in Hb. split; nia.
        - assert (Hs : 2 ^ (- e0) = 2 ^ Zpos p * 2 ^ (Zneg p - e0)).
          { rewrite <- Z.pow_add_r by lia. f_equal; lia. }
          assert (0 < 2 ^ (Zneg p - e0)) by (apply Z.pow_pos_nonneg; lia).
          assert (Hd : 0 < 2 ^ Zpos p) by (apply Z.pow_pos_nonneg; lia).
          rewrite Hs in Hb. split.
          + unfold round_half_even.
            pose proof (Z.div_pos (Zpos m) (2 ^ Zpos p) ltac:(lia) Hd).
            destruct (_ ?= _); try destruct (Z.even _); lia.
          + apply round_half_even_le; [exact Hd|]. split; [lia|nia]. }
      clearbody mag. injection Hn as <-. destruct s; lia.
Qed.

Section TargetSize.

Variable cfg : Config.
Hypothesis cfg_ok : valid_config cfg.

Lemma orders_within_snoc limit l c :
  orders_within limit l ->
  match c with OrderTarget n => Z.abs n <= limit | _ => True end ->
  orders_within limit (l ++ [c]).
Proof.
  intros Hl Hc. apply Forall_app. split; [exact Hl|].
  constructor; [exact Hc|constructor].
Qed.

(** X13.  The environment never asks the gateway for a position larger
    than [max_quantity], long or short: every target order in the log of
    requests made since construction, and the desired position the
    environment holds, is at most [max_quantity] in magnitude. *)
Theorem orders_within_max_quantity position cs s os :
  run cfg cs (init position) = Some (s, os) ->
  orders_within (max_quantity cfg) (ib_calls s) /\
  Z.abs (pos_desired s) <= max_quantity cfg.
Proof.
  pose proof (proj1 cfg_ok) as Hq.
  apply (run_invariant cfg
           (fun s => orders_within (max_quantity cfg) (ib_calls s) /\
                     Z.abs (pos_desired s) <= max_quantity cfg)).
  2:{ split; [constructor|cbn; lia]. }
  intros c s0 s' out (Hl & Hp) Hc _.
  apply call_outcomes in Hc.
  destruct c as [r|i| |evs|e].
  - destruct Hc as (o & Hr). apply reset_outcomes in Hr. cbv zeta in Hr.
    destruct Hr as [(_ & _ & ->)|(ob & q & _ & _ & ->)]; env_norm;
      (split; [apply orders_within_snoc; trivial|cbn; lia]).
  - destruct Hc as (o & Hst). apply step_outcomes in Hst.
    destruct Hst as [(_ & -> & _)|(t0 & _ & Hst)]; [auto|].
    destruct Hst as [(_ & _ & ->)|[(_ & _ & _ & ->)|[(_ & _ & _ & _ & ->)|
                     (_ & Hbox & n & Hn & Hst)]]]; env_simpl; auto.
    { split; [apply orders_within_snoc; trivial|assumption]. }
    cbv zeta in Hst.
    assert (Hv : ib_calls (ordered cfg i t0 n s0)
                 = if may_order cfg i
                   then (ib_calls s0 ++ [CancelAll]) ++ [OrderTarget n]
                   else ib_calls s0 ++ [CancelAll])
      by (unfold ordered; destruct (may_order cfg i); reflexivity).
    assert (Hd : pos_desired (ordered cfg i t0 n s0)
                 = if may_order cfg i then n else pos_desired s0)
      by (unfold ordered; destruct (may_order cfg i); reflexivity).
    assert (Hb : may_order cfg i = true -> Z.abs n <= max_quantity cfg).
    { intros Hm. apply (target_bounded _ _ _ Hq Hbox (Hn Hm)). }
    assert (Hgoal :
      orders_within (max_quantity cfg) (ib_calls (ordered cfg i t0 n s0)) /\
      Z.abs (pos_desired (ordered cfg i t0 n s0)) <= max_quantity cfg).
    { rewrite Hv, Hd. destruct (may_order cfg i).
      - split; [|auto]. apply orders_within_snoc; [|auto].
        apply orders_within_snoc; trivial.
      - split; [|assumption]. apply orders_within_snoc; trivial. }
    destruct Hst as [(_ & _ & ->)|[(_ & _ & ->)|(ob & q & r & _ & _ & -> & _)]];
      env_norm; exact Hgoal.
  - subst. env_simpl. auto.
  - subst. env_norm. split; [|assumption].
    apply orders_within_snoc; [|trivial].
    apply orders_within_snoc; trivial.
  - subst. env_norm. auto.
Qed.

End TargetSize.

(** ** The further properties at concrete inputs *)

Lemma latency_history_bounded_witness :
  (List.length (act_time env_long) <= 10)%nat.
Proof.
  apply (latency_history_bounded cfg1 3 calls_long env_long
           (repeat (Some (bar_array bar0)) 13)).
  vm_compute. reflexivity.
Defined.

Lemma step_takes_oldest_witness :
  exists s' r,
    _step cfg1 (sin0 0.5 [ev_bar]) env1_backlog = (s', Returned r) /\
    r_observation r = Some (bar_array bar0) /\
    observation s' = Some (bar_array bar0) /\
    data_q s' = Some [Some (bar_array bar0); Some (bar_array bar0)].
Proof.
  exact (step_takes_oldest cfg1 (sin0 0.5 [ev_bar]) env1_backlog
           (fst (step_to_wait cfg1 (sin0 0.5 [ev_bar]) env1_backlog)) false
           [Some (bar_array bar0); Some (bar_array bar0)]
           ltac:(vm_compute; reflexivity) eq_refl).
Defined.

Lemma info_is_snapshot_witness :
  info_step (mkInfo 1 3 5 0 0 0 1) = step_num env1 + 1.
Proof.
  destruct (info_is_snapshot cfg1 (sin0 0.5 [ev_bar])
              (deliver_all cfg1 [OnOrder 2.5] env1)
              (fst (_step cfg1 (sin0 0.5 [ev_bar])
                      (deliver_all cfg1 [OnOrder 2.5] env1)))
              (mkStepResult (Some (bar_array bar0)) (Some 3%float) false
                 (mkInfo 1 3 5 0 0 0 1))
              ltac:(vm_compute; reflexivity))
    as (t0 & _ & H & _).
  exact H.
Defined.


Lemma done_until_reset_witness :
  done env_after_done = true /\
  @nil (option Obs) = [] /\
  data_q env_after_done = data_q env_done.
Proof.
  apply (done_until_reset cfg0 calls_after_done env_done env_after_done []).
  - reflexivity.
  - reflexivity.
  - vm_compute. reflexivity.
Defined.

Lemma orders_follow_cancel_witness :
  cancel_before_order (ib_calls env_long).
Proof.
  apply (orders_follow_cancel cfg1 3 calls_long env_long
           (repeat (Some (bar_array bar0)) 13)).
  vm_compute. reflexivity.
Defined.

Lemma nan_action_is_rejected_witness :
  exists s',
    _step cfg1 (sin0 nan [ev_bar]) env1 = (s', Raised AssertionError) /\
    ib_calls s' = ib_calls env1 /\
    step_num s' = step_num env1 + 1 /\
    action s' = Some nan /\
    profit s' = profit env1 /\
    episode_profit s' = episode_profit env1 /\
    pos_desired s' = pos_desired env1 /\
    data_q s' = data_q env1 /\
    active s'.
Proof.
  exact (nan_action_is_rejected cfg1 (sin0 nan [ev_bar]) env1
           env1_active eq_refl eq_refl).
Defined.


Lemma orders_within_max_quantity_witness :
  orders_within (max_quantity cfg1) (ib_calls env_long) /\
  Z.abs (pos_desired env_long) <= max_quantity cfg1.
Proof.
  exact (orders_within_max_quantity cfg1 cfg1_ok 3 calls_long env_long
           (repeat (Some (bar_array bar0)) 13)
           ltac:(vm_compute; reflexivity)).
Defined.
